(** * Query lowering: [packages/compiler/src/render3/view/query_generation.ts]

    A shallow embedding of the functions of [query_generation.ts]
    ([toQueryFlags], [getQueryPredicate], [createQueryCreateCall],
    [createViewQueriesFunction], [createContentQueriesFunction]) and the
    properties of their output.

    The file imports the output AST ([o.*]), the constant pool, the
    instruction identifier table [R3], a few names and the temporary
    allocator from sibling modules.  The AST is embedded as inductive types
    with one constructor per node class the file builds; the other imports
    are the fields of two interfaces, [Imports] and [TempAllocator], over
    which every function below is generic. *)

From Stdlib Require Import List String Ascii ZArith Bool Lia DecimalString.
Import ListNotations.
Local Open Scope string_scope.
Local Open Scope Z_scope.

Set Implicit Arguments.
Set Warnings "-register-all".

(** ** Output AST ([output/output_ast.ts]) *)

Module o.

(** [ExternalReference]: a module name and a symbol name. *)
Record ExternalReference := {
  moduleName : option string;
  name : option string
}.

(** The values [o.literal] is applied to. *)
Inductive LiteralValue :=
| LitNull
| LitBool (b : bool)
| LitNumber (n : Z)
| LitString (s : string).

(** [o.NUMBER_TYPE], [o.INFERRED_TYPE], [o.DYNAMIC_TYPE]. *)
Inductive Type_ := NUMBER_TYPE | INFERRED_TYPE | DYNAMIC_TYPE.

Inductive BinaryOperator := And | BitwiseAnd.

(** [new o.FnParam(name, type)]. *)
Record FnParam := {
  param_name : string;
  param_type : option Type_
}.

(** Expression and statement nodes.  [Upstream] stands for an expression
    built by the caller (a query's predicate expression or [read] token):
    this file embeds such expressions and never inspects them. *)
Inductive Expression :=
| Upstream (id : nat)
| LiteralExpr (value : LiteralValue)
| LiteralArrayExpr (entries : list Expression)
| ReadVarExpr (name : string)
| WriteVarExpr (name : string) (value : Expression)
| ReadPropExpr (receiver : Expression) (name : string)
| WritePropExpr (receiver : Expression) (name : string) (value : Expression)
| ExternalExpr (value : ExternalReference)
| InvokeFunctionExpr (fn : Expression) (args : list Expression)
| BinaryOperatorExpr (operator : BinaryOperator) (lhs rhs : Expression)
| FunctionExpr (params : list FnParam) (statements : list Statement)
               (type : option Type_) (name : option string)
with Statement :=
| ExpressionStatement (expr : Expression)
| DeclareVarStmt (name : string) (value : option Expression) (type : option Type_)
| IfStmt (condition : Expression) (trueCase falseCase : list Statement).

(** The builders and methods of [output_ast.ts] the file calls. *)
Definition literal (value : LiteralValue) : Expression := LiteralExpr value.
Definition literalArr (values : list Expression) : Expression := LiteralArrayExpr values.
Definition variable (name : string) : Expression := ReadVarExpr name.
Definition importExpr (id : ExternalReference) : Expression := ExternalExpr id.
Definition callFn (fn : Expression) (params : list Expression) : Expression :=
  InvokeFunctionExpr fn params.
Definition prop (receiver : Expression) (name : string) : Expression :=
  ReadPropExpr receiver name.
Definition and (lhs rhs : Expression) : Expression := BinaryOperatorExpr And lhs rhs.
Definition toStmt (e : Expression) : Statement := ExpressionStatement e.

(** [ReadVarExpr.set] and [ReadPropExpr.set]. *)
Definition setVar (name : string) (value : Expression) : Expression :=
  WriteVarExpr name value.
Definition setProp (receiver : Expression) (name : string) (value : Expression)
  : Expression := WritePropExpr receiver name value.

(** [o.fn(params, body, type, sourceSpan, name)]; the file always passes a
    null source span. *)
Definition fn (params : list FnParam) (body : list Statement)
           (type : option Type_) (name : option string) : Expression :=
  FunctionExpr params body type name.

End o.

(** ** JavaScript strings

    A [string] is read as a sequence of UTF-16 code units below 256, one per
    [ascii]. *)

Module JsString.

(** The code units below 256 that [String.prototype.trim] strips: TAB, LF,
    VT, FF, CR, SPACE and NO-BREAK SPACE. *)
Definition isWhiteSpace (c : ascii) : bool :=
  let n := N_of_ascii c in
  ((9 <=? n) && (n <=? 13) || (n =? 32) || (n =? 160))%N.

(** [s.split(sep)] for a one-character separator: never empty, the empty
    string splits into one empty piece. *)
Fixpoint split (sep : ascii) (s : string) : list string :=
  match s with
  | EmptyString => [EmptyString]
  | String c rest =>
      if Ascii.eqb c sep then EmptyString :: split sep rest
      else match split sep rest with
           | [] => [String c EmptyString]
           | piece :: pieces => String c piece :: pieces
           end
  end.

Fixpoint trimStart (s : string) : string :=
  match s with
  | EmptyString => EmptyString
  | String c rest => if isWhiteSpace c then trimStart rest else s
  end.

Fixpoint trimEnd (s : string) : string :=
  match s with
  | EmptyString => EmptyString
  | String c rest =>
      match trimEnd rest with
      | EmptyString => if isWhiteSpace c then EmptyString else String c EmptyString
      | rest' => String c rest'
      end
  end.

(** [s.trim()]. *)
Definition trim (s : string) : string := trimEnd (trimStart s).

(** A string made of white space only. *)
Fixpoint allWhiteSpace (s : string) : bool :=
  match s with
  | EmptyString => true
  | String c rest => isWhiteSpace c && allWhiteSpace rest
  end.

Definition startsWithWhiteSpace (s : string) : bool :=
  match s with
  | EmptyString => false
  | String c _ => isWhiteSpace c
  end.

Fixpoint endsWithWhiteSpace (s : string) : bool :=
  match s with
  | EmptyString => false
  | String c EmptyString => isWhiteSpace c
  | String _ rest => endsWithWhiteSpace rest
  end.

Fixpoint contains (c : ascii) (s : string) : bool :=
  match s with
  | EmptyString => false
  | String d rest => Ascii.eqb d c || contains c rest
  end.

(** [pieces.join(sep)]. *)
Fixpoint join (sep : string) (pieces : list string) : string :=
  match pieces with
  | [] => EmptyString
  | [p] => p
  | p :: rest => p ++ sep ++ join sep rest
  end.

End JsString.

(** ** Query flags *)

(** [const enum QueryFlags]. *)
Module QueryFlags.
Definition none : Z := 0.                      (* 0b0000 *)
Definition descendants : Z := 1.               (* 0b0001 *)
Definition isStatic : Z := 2.                  (* 0b0010 *)
Definition emitDistinctChangesOnly : Z := 4.   (* 0b0100 *)
End QueryFlags.

(** [ForwardRefHandling] ([render3/util.ts]): how a predicate expression
    relates to a [forwardRef()] call. *)
Module ForwardRefHandling.
Inductive t := None | Wrapped | Unwrapped.

(** The number a member is at run time: the enum declares [None],
    [Wrapped], [Unwrapped] in this order, without initializers. *)
Definition value (handling : t) : Z :=
  match handling with
  | None => 0
  | Wrapped => 1
  | Unwrapped => 2
  end.

(** A number that is the value of a member. *)
Definition isMember (v : Z) : bool :=
  existsb (fun handling => Z.eqb v (value handling)) [None; Wrapped; Unwrapped].
End ForwardRefHandling.

(** [query.predicate]: [string[]] or [MaybeForwardRefExpression]. *)
Inductive Predicate :=
| Selectors (selectors : list string)
| MaybeForwardRefExpression (expression : o.Expression) (forwardRef : ForwardRefHandling.t).

(** [R3QueryMetadata] ([render3/view/api.ts]): the fields the file reads. *)
Record R3QueryMetadata := {
  propertyName : string;
  first : bool;
  predicate : Predicate;
  descendants : bool;
  emitDistinctChangesOnly : bool;
  read : option o.Expression;
  static : bool;
  isSignal : bool
}.

(** [toQueryFlags]. *)
Definition toQueryFlags (query : R3QueryMetadata) : Z :=
  Z.lor
    (Z.lor (if descendants query then QueryFlags.descendants else QueryFlags.none)
           (if static query then QueryFlags.isStatic else QueryFlags.none))
    (if emitDistinctChangesOnly query
     then QueryFlags.emitDistinctChangesOnly else QueryFlags.none).

(** ** Imports *)

Local Open Scope list_scope.

(** [Identifiers] ([render3/r3_identifiers.ts]): the instructions the file
    refers to. *)
Record Identifiers := {
  resolveForwardRef : o.ExternalReference;
  viewQuery : o.ExternalReference;
  viewQuerySignal : o.ExternalReference;
  contentQuery : o.ExternalReference;
  contentQuerySignal : o.ExternalReference;
  queryAdvance : o.ExternalReference;
  loadQuery : o.ExternalReference;
  queryRefresh : o.ExternalReference
}.

(** [core.RenderFlags]. *)
Module RenderFlags.
Inductive t := Create | Update.
End RenderFlags.

(** What the file imports besides the AST: the identifier table, three
    variable names, the phase gate [renderFlagCheckIfStmt] of
    [render3/view/template.ts], and the constant pool.  The pool is a mutable
    object: [getConstLiteral] takes the pool's state and returns the new one
    next to its result. *)
Class Imports := {
  R3 : Identifiers;
  CONTEXT_NAME : string;
  RENDER_FLAGS : string;
  TEMPORARY_NAME : string;
  renderFlagCheckIfStmt : RenderFlags.t -> list o.Statement -> o.Statement;
  ConstantPool : Type;
  getConstLiteral : ConstantPool -> o.Expression -> bool -> o.Expression * ConstantPool
}.

(** [temporaryAllocator] ([render3/view/util.ts]).  It is handed the array of
    update statements and a name, and returns a closure; calling the closure
    returns a [ReadVarExpr], given here by its name.  The closure keeps the
    array it was handed, so both operations take the array's current contents
    and return them as they leave them; [allocator] is the closure's private
    state. *)
Class TempAllocator := {
  allocator : Type;
  temporaryAllocator : list o.Statement -> string -> allocator * list o.Statement;
  tempAllocator : allocator -> list o.Statement -> string * allocator * list o.Statement
}.

(** Modelled from the spec: [temporaryAllocator] of [render3/view/util.ts],
    whose body is not in this file.  The spec describes it as yielding "a
    reusable local-variable reference, scoped to one generated function",
    "one per generated function's update block", held in "one mutable slot":
    the slot is filled with a reference to the given name at the first call
    and every call returns the slot's content.  The spec is silent on what
    the allocator does with the array it is handed; this instance leaves the
    array alone, [declaringAllocator] below does not. *)
Definition specTemporaryAllocator : TempAllocator := {|
  allocator := string * option string;
  temporaryAllocator := fun statements name => ((name, None), statements);
  tempAllocator := fun '(name, slot) statements =>
    match slot with
    | None => (name, (name, Some name), statements)
    | Some temp => (temp, (name, slot), statements)
    end
|}.

(** ** The functions of [query_generation.ts] *)

(** The argument [queryTypeFns] of [createQueryCreateCall]. *)
Record QueryTypeFns := {
  signalBased : o.ExternalReference;
  nonSignal : o.ExternalReference
}.

(** The local variables that the loops of [createViewQueriesFunction] and
    [createContentQueriesFunction] update, with the state of the pool. *)
Record QueriesState `{Imports} `{TempAllocator} := {
  createStatements : list o.Statement;
  updateStatements : list o.Statement;
  tempAllocatorState : allocator;
  poolState : ConstantPool
}.

Section QueryGeneration.

Context `{I : Imports} `{A : TempAllocator}.

(** The body of the [forEach] callback of [getQueryPredicate]: the pieces of
    one selector, trimmed, pushed onto [predicate]. *)
Definition pushSelectors (predicate : list o.Expression) (selector : string)
  : list o.Expression :=
  let selectors :=
    map (fun token => o.literal (o.LitString (JsString.trim token)))
        (JsString.split "," selector) in
  predicate ++ selectors.

(** [getQueryPredicate]. *)
Definition getQueryPredicate (query : R3QueryMetadata) (constantPool : ConstantPool)
  : o.Expression * ConstantPool :=
  match predicate query with
  | Selectors selectors =>
      let predicate := fold_left pushSelectors selectors [] in
      getConstLiteral constantPool (o.literalArr predicate) true
  | MaybeForwardRefExpression expression forwardRef =>
      match forwardRef with
      | ForwardRefHandling.None
      | ForwardRefHandling.Unwrapped => (expression, constantPool)
      | ForwardRefHandling.Wrapped =>
          (o.callFn (o.importExpr (resolveForwardRef R3)) [expression], constantPool)
      end
  end.

(** [createQueryCreateCall]; [prependParams] is [None] when the argument is
    left out. *)
Definition createQueryCreateCall (query : R3QueryMetadata) (constantPool : ConstantPool)
    (queryTypeFns : QueryTypeFns) (prependParams : option (list o.Expression))
  : o.Expression * ConstantPool :=
  let parameters : list o.Expression := [] in
  let parameters :=
    match prependParams with
    | Some prepend => parameters ++ prepend
    | None => parameters
    end in
  let parameters :=
    if isSignal query
    then parameters ++ [o.ReadPropExpr (o.variable CONTEXT_NAME) (propertyName query)]
    else parameters in
  let '(queryPredicate, constantPool) := getQueryPredicate query constantPool in
  let parameters :=
    parameters ++ [queryPredicate; o.literal (o.LitNumber (toQueryFlags query))] in
  let parameters :=
    match read query with
    | Some token => parameters ++ [token]
    | None => parameters
    end in
  let queryCreateFn :=
    if isSignal query then signalBased queryTypeFns else nonSignal queryTypeFns in
  (o.callFn (o.importExpr queryCreateFn) parameters, constantPool).

(** The update statement of a query that is not a signal, for the temporary
    the allocator returned:
    [r3.queryRefresh(tmp = r3.loadQuery()) && (ctx.someDir = tmp)]. *)
Definition refreshStatement (query : R3QueryMetadata) (temporary : string) : o.Statement :=
  let getQueryList := o.callFn (o.importExpr (loadQuery R3)) [] in
  let refresh :=
    o.callFn (o.importExpr (queryRefresh R3)) [o.setVar temporary getQueryList] in
  let updateDirective :=
    o.setProp (o.variable CONTEXT_NAME) (propertyName query)
      (if first query then o.prop (o.variable temporary) "first"
       else o.variable temporary) in
  o.toStmt (o.and refresh updateDirective).

(** The update statement of a signal query. *)
Definition advanceStatement : o.Statement :=
  o.toStmt (o.callFn (o.importExpr (queryAdvance R3)) []).

(** The callback of [viewQueries.forEach] in [createViewQueriesFunction]. *)
Definition viewQueriesCallback (st : QueriesState) (query : R3QueryMetadata)
  : QueriesState :=
  let '(queryDefinitionCall, pool) :=
    createQueryCreateCall query (poolState st)
      {| signalBased := viewQuerySignal R3; nonSignal := viewQuery R3 |} None in
  let createStatements := createStatements st ++ [o.toStmt queryDefinitionCall] in
  if isSignal query then
    {| createStatements := createStatements;
       updateStatements := updateStatements st ++ [advanceStatement];
       tempAllocatorState := tempAllocatorState st;
       poolState := pool |}
  else
    let '(temporary, allocState, updateStatements) :=
      tempAllocator (tempAllocatorState st) (updateStatements st) in
    {| createStatements := createStatements;
       updateStatements := updateStatements ++ [refreshStatement query temporary];
       tempAllocatorState := allocState;
       poolState := pool |}.

(** The body of the [for] loop of [createContentQueriesFunction]. *)
Definition contentQueriesBody (st : QueriesState) (query : R3QueryMetadata)
  : QueriesState :=
  let '(call, pool) :=
    createQueryCreateCall query (poolState st)
      {| nonSignal := contentQuery R3; signalBased := contentQuerySignal R3 |}
      (Some [o.variable "dirIndex"]) in
  let createStatements := createStatements st ++ [o.toStmt call] in
  if isSignal query then
    {| createStatements := createStatements;
       updateStatements := updateStatements st ++ [advanceStatement];
       tempAllocatorState := tempAllocatorState st;
       poolState := pool |}
  else
    let '(temporary, allocState, updateStatements) :=
      tempAllocator (tempAllocatorState st) (updateStatements st) in
    {| createStatements := createStatements;
       updateStatements := updateStatements ++ [refreshStatement query temporary];
       tempAllocatorState := allocState;
       poolState := pool |}.

(** The state in which both functions enter their loop: two empty arrays and
    a fresh allocator over the second. *)
Definition initialState (constantPool : ConstantPool) : QueriesState :=
  let createStatements : list o.Statement := [] in
  let updateStatements : list o.Statement := [] in
  let '(tempAllocator, updateStatements) :=
    temporaryAllocator updateStatements TEMPORARY_NAME in
  {| createStatements := createStatements;
     updateStatements := updateStatements;
     tempAllocatorState := tempAllocator;
     poolState := constantPool |}.

(** The state in which [createViewQueriesFunction] leaves its loop. *)
Definition viewQueriesStatements (viewQueries : list R3QueryMetadata)
    (constantPool : ConstantPool) : QueriesState :=
  fold_left viewQueriesCallback viewQueries (initialState constantPool).

(** The state in which [createContentQueriesFunction] leaves its loop. *)
Definition contentQueriesStatements (queries : list R3QueryMetadata)
    (constantPool : ConstantPool) : QueriesState :=
  fold_left contentQueriesBody queries (initialState constantPool).

(** [name ? `${name}<suffix>` : null]: an omitted name and the empty string
    are both falsy. *)
Definition fnName (name : option string) (suffix : string) : option string :=
  match name with
  | Some (String _ _ as name) => Some (name ++ suffix)%string
  | Some EmptyString | None => None
  end.

(** [createViewQueriesFunction]: the function expression, and the pool as the
    call leaves it. *)
Definition createViewQueriesFunction (viewQueries : list R3QueryMetadata)
    (constantPool : ConstantPool) (name : option string)
  : o.Expression * ConstantPool :=
  let st := viewQueriesStatements viewQueries constantPool in
  let viewQueryFnName := fnName name "_Query" in
  (o.fn
     [ {| o.param_name := RENDER_FLAGS; o.param_type := Some o.NUMBER_TYPE |};
       {| o.param_name := CONTEXT_NAME; o.param_type := None |} ]
     [ renderFlagCheckIfStmt RenderFlags.Create (createStatements st);
       renderFlagCheckIfStmt RenderFlags.Update (updateStatements st) ]
     (Some o.INFERRED_TYPE) viewQueryFnName,
   poolState st).

(** [createContentQueriesFunction]. *)
Definition createContentQueriesFunction (queries : list R3QueryMetadata)
    (constantPool : ConstantPool) (name : option string)
  : o.Expression * ConstantPool :=
  let st := contentQueriesStatements queries constantPool in
  let contentQueriesFnName := fnName name "_ContentQueries" in
  (o.fn
     [ {| o.param_name := RENDER_FLAGS; o.param_type := Some o.NUMBER_TYPE |};
       {| o.param_name := CONTEXT_NAME; o.param_type := None |};
       {| o.param_name := "dirIndex"; o.param_type := None |} ]
     [ renderFlagCheckIfStmt RenderFlags.Create (createStatements st);
       renderFlagCheckIfStmt RenderFlags.Update (updateStatements st) ]
     (Some o.INFERRED_TYPE) contentQueriesFnName,
   poolState st).

End QueryGeneration.

(** ** Values outside the type of [forwardRef]

    TypeScript checks the [switch] of [getQueryPredicate] as exhaustive over
    [ForwardRefHandling], so it has no [default] branch and the function no
    [throw].  The compiled function still runs on any value of the field: a
    value that is no member of the enum matches no [case], control leaves
    the [switch], and the function ends without a [return]. *)

(** How a call ends. *)
Inductive Completion (A : Type) :=
| Returned (result : A)
| ReturnedUndefined
| Thrown (error : string).

Arguments ReturnedUndefined {A}.
Arguments Thrown {A} error.

Definition isThrown {A : Type} (c : Completion A) : bool :=
  match c with
  | Thrown _ => true
  | _ => false
  end.

(** The [else] branch of [getQueryPredicate] on any number as the run-time
    value of [forwardRef]: the [switch] compares the value with its three
    case labels, in the order it lists them, and has no [default]. *)
Definition getQueryPredicateAtRunTime `{Imports} (expression : o.Expression)
    (forwardRef : Z) : Completion o.Expression :=
  if forwardRef =? ForwardRefHandling.value ForwardRefHandling.None
  then Returned expression
  else if forwardRef =? ForwardRefHandling.value ForwardRefHandling.Unwrapped
  then Returned expression
  else if forwardRef =? ForwardRefHandling.value ForwardRefHandling.Wrapped
  then Returned (o.callFn (o.importExpr (resolveForwardRef R3)) [expression])
  else ReturnedUndefined.

(** ** The synthesizers as the spec words them

    One algorithm per descriptor, run by both synthesizers, which "differ
    only in" the pair of creation instructions, the prepended arguments, the
    extra function parameters and the suffix of the function name. *)

Section Template.

Context `{I : Imports} `{A : TempAllocator}.

Variable queryTypeFns : QueryTypeFns.
Variable prependParams : option (list o.Expression).
Variable extraParams : list o.FnParam.
Variable suffix : string.

Definition sharedStep (st : QueriesState) (query : R3QueryMetadata) : QueriesState :=
  let '(call, pool) :=
    createQueryCreateCall query (poolState st) queryTypeFns prependParams in
  let '(updates, allocState) :=
    if isSignal query
    then (updateStatements st ++ [advanceStatement], tempAllocatorState st)
    else
      let '(temporary, allocState, updates) :=
        tempAllocator (tempAllocatorState st) (updateStatements st) in
      (updates ++ [refreshStatement query temporary], allocState) in
  {| createStatements := createStatements st ++ [o.toStmt call];
     updateStatements := updates;
     tempAllocatorState := allocState;
     poolState := pool |}.

Definition sharedSynthesizer (queries : list R3QueryMetadata)
    (constantPool : ConstantPool) (name : option string)
  : o.Expression * ConstantPool :=
  let st := fold_left sharedStep queries (initialState constantPool) in
  (o.fn
     ([ {| o.param_name := RENDER_FLAGS; o.param_type := Some o.NUMBER_TYPE |};
        {| o.param_name := CONTEXT_NAME; o.param_type := None |} ] ++ extraParams)
     [ renderFlagCheckIfStmt RenderFlags.Create (createStatements st);
       renderFlagCheckIfStmt RenderFlags.Update (updateStatements st) ]
     (Some o.INFERRED_TYPE) (fnName name suffix),
   poolState st).

End Template.

(** The update statements alone, as a function of the descriptors and the
    allocator: the part of the loop that never looks at the creation call. *)
Definition updateStep `{Imports} `{TempAllocator}
    (acc : list o.Statement * allocator) (query : R3QueryMetadata)
  : list o.Statement * allocator :=
  if isSignal query then (fst acc ++ [advanceStatement], snd acc)
  else
    let '(temporary, allocState, updates) := tempAllocator (snd acc) (fst acc) in
    (updates ++ [refreshStatement query temporary], allocState).

(** The pool after the creation calls of a list of descriptors. *)
Definition poolAfter `{Imports} (queries : list R3QueryMetadata)
    (constantPool : ConstantPool) : ConstantPool :=
  fold_left (fun pool query => snd (getQueryPredicate query pool)) queries constantPool.

(** The update statement of one descriptor when the temporary is
    [TEMPORARY_NAME]. *)
Definition updateStatementOf `{Imports} (query : R3QueryMetadata) : o.Statement :=
  if isSignal query then advanceStatement else refreshStatement query TEMPORARY_NAME.

(** ** A sample environment

    An instance of [Imports] on which the functions evaluate: a constant
    pool that shares literals by structural equality, and a gate that builds
    the conditional [if (rf & flag) { ... }]. *)

Module Sample.

Definition list_eqb {A : Type} (eqb : A -> A -> bool) : list A -> list A -> bool :=
  fix go (xs ys : list A) : bool :=
    match xs, ys with
    | [], [] => true
    | x :: xs', y :: ys' => eqb x y && go xs' ys'
    | _, _ => false
    end.

Definition option_eqb {A : Type} (eqb : A -> A -> bool) (x y : option A) : bool :=
  match x, y with
  | None, None => true
  | Some a, Some b => eqb a b
  | _, _ => false
  end.

Definition reference_eqb (x y : o.ExternalReference) : bool :=
  option_eqb String.eqb (o.moduleName x) (o.moduleName y)
  && option_eqb String.eqb (o.name x) (o.name y).

Definition literal_eqb (x y : o.LiteralValue) : bool :=
  match x, y with
  | o.LitNull, o.LitNull => true
  | o.LitBool a, o.LitBool b => Bool.eqb a b
  | o.LitNumber a, o.LitNumber b => Z.eqb a b
  | o.LitString a, o.LitString b => String.eqb a b
  | _, _ => false
  end.

Definition type_eqb (x y : o.Type_) : bool :=
  match x, y with
  | o.NUMBER_TYPE, o.NUMBER_TYPE
  | o.INFERRED_TYPE, o.INFERRED_TYPE
  | o.DYNAMIC_TYPE, o.DYNAMIC_TYPE => true
  | _, _ => false
  end.

Definition operator_eqb (x y : o.BinaryOperator) : bool :=
  match x, y with
  | o.And, o.And | o.BitwiseAnd, o.BitwiseAnd => true
  | _, _ => false
  end.

Definition param_eqb (x y : o.FnParam) : bool :=
  String.eqb (o.param_name x) (o.param_name y)
  && option_eqb type_eqb (o.param_type x) (o.param_type y).

(** Structural equality of expressions and of statements. *)
Fixpoint expression_eqb (x y : o.Expression) {struct x} : bool :=
  match x, y with
  | o.Upstream a, o.Upstream b => Nat.eqb a b
  | o.LiteralExpr a, o.LiteralExpr b => literal_eqb a b
  | o.LiteralArrayExpr xs, o.LiteralArrayExpr ys => list_eqb expression_eqb xs ys
  | o.ReadVarExpr a, o.ReadVarExpr b => String.eqb a b
  | o.WriteVarExpr a v, o.WriteVarExpr b w => String.eqb a b && expression_eqb v w
  | o.ReadPropExpr r a, o.ReadPropExpr s b => expression_eqb r s && String.eqb a b
  | o.WritePropExpr r a v, o.WritePropExpr s b w =>
      expression_eqb r s && String.eqb a b && expression_eqb v w
  | o.ExternalExpr a, o.ExternalExpr b => reference_eqb a b
  | o.InvokeFunctionExpr f xs, o.InvokeFunctionExpr g ys =>
      expression_eqb f g && list_eqb expression_eqb xs ys
  | o.BinaryOperatorExpr p a b, o.BinaryOperatorExpr q c d =>
      operator_eqb p q && expression_eqb a c && expression_eqb b d
  | o.FunctionExpr ps ss t n, o.FunctionExpr qs ts u m =>
      list_eqb param_eqb ps qs && list_eqb statement_eqb ss ts
      && option_eqb type_eqb t u && option_eqb String.eqb n m
  | _, _ => false
  end
with statement_eqb (x y : o.Statement) {struct x} : bool :=
  match x, y with
  | o.ExpressionStatement a, o.ExpressionStatement b => expression_eqb a b
  | o.DeclareVarStmt a v t, o.DeclareVarStmt b w u =>
      String.eqb a b
      && match v, w with
         | None, None => true
         | Some v', Some w' => expression_eqb v' w'
         | _, _ => false
         end
      && option_eqb type_eqb t u
  | o.IfStmt c ts fs, o.IfStmt d us gs =>
      expression_eqb c d && list_eqb statement_eqb ts us && list_eqb statement_eqb fs gs
  | _, _ => false
  end.

(** The index of the first entry of the pool equal to [literal]. *)
Fixpoint indexOf (literal : o.Expression) (pool : list o.Expression) : option nat :=
  match pool with
  | [] => None
  | entry :: rest =>
      if expression_eqb entry literal then Some O
      else option_map S (indexOf literal rest)
  end.

(** The shared reference of the [index]-th literal of the pool. *)
Definition constant (index : nat) : o.Expression :=
  o.variable ("_c" ++ NilEmpty.string_of_uint (Nat.to_uint index))%string.

(** Modelled from the spec: [ConstantPool.getConstLiteral] of
    [constant_pool.ts], which "maps a literal-array value to a shared
    reference; requesting the same literal array twice (structural equality)
    yields the identical reference".  The pool is the list of the literals
    requested so far. *)
Definition shareLiteral (pool : list o.Expression) (literal : o.Expression)
    (forceShared : bool) : o.Expression * list o.Expression :=
  match indexOf literal pool with
  | Some index => (constant index, pool)
  | None => (constant (List.length pool), pool ++ [literal])
  end.

Definition core (name : string) : o.ExternalReference :=
  {| o.moduleName := Some "@angular/core"; o.name := Some name |}.

Definition identifiers : Identifiers := {|
  resolveForwardRef := core "resolveForwardRef";
  viewQuery := core "viewQuery";
  viewQuerySignal := core "viewQuerySignal";
  contentQuery := core "contentQuery";
  contentQuerySignal := core "contentQuerySignal";
  queryAdvance := core "queryAdvance";
  loadQuery := core "loadQuery";
  queryRefresh := core "queryRefresh"
|}.

Definition phase (flags : RenderFlags.t) : Z :=
  match flags with
  | RenderFlags.Create => 1
  | RenderFlags.Update => 2
  end.

(** Modelled from the spec: the phase gate, "a conditional executing
    [statements] only when the runtime phase bitmask includes [phaseFlag]". *)
Definition gate (flags : RenderFlags.t) (statements : list o.Statement)
  : o.Statement :=
  o.IfStmt
    (o.BinaryOperatorExpr o.BitwiseAnd (o.variable "rf")
       (o.literal (o.LitNumber (phase flags))))
    statements [].

Definition imports : Imports := {|
  R3 := identifiers;
  CONTEXT_NAME := "ctx";
  RENDER_FLAGS := "rf";
  TEMPORARY_NAME := "_t";
  renderFlagCheckIfStmt := gate;
  ConstantPool := list o.Expression;
  getConstLiteral := shareLiteral
|}.

(** A descriptor with every flag off, to be varied by the examples. *)
Definition query (propertyName : string) (predicate : Predicate) : R3QueryMetadata := {|
  propertyName := propertyName;
  first := false;
  predicate := predicate;
  descendants := false;
  emitDistinctChangesOnly := false;
  read := None;
  static := false;
  isSignal := false
|}.

(** The two descriptors of the end-to-end example of the spec: a query that
    is not a signal, with selector [ref], [first] and [descendants]; and a
    signal query on an expression. *)
Definition firstQuery : R3QueryMetadata := {|
  propertyName := "item";
  first := true;
  predicate := Selectors ["ref"%string];
  descendants := true;
  emitDistinctChangesOnly := false;
  read := None;
  static := false;
  isSignal := false
|}.

Definition signalQuery : R3QueryMetadata := {|
  propertyName := "items";
  first := true;
  predicate := MaybeForwardRefExpression (o.Upstream 0) ForwardRefHandling.None;
  descendants := false;
  emitDistinctChangesOnly := false;
  read := None;
  static := false;
  isSignal := true
|}.

(** The loop state both functions start from, on an empty pool. *)
Definition start : QueriesState (H := imports) (H0 := specTemporaryAllocator) :=
  initialState (I := imports) (A := specTemporaryAllocator) [].

End Sample.

(** ** Vocabulary of the statements *)

(** The flat list of selector pieces as the spec words it: each selector in
    input order, split on commas, each piece trimmed. *)
Definition flattenSelectors (selectors : list string) : list string :=
  flat_map (fun selector => map JsString.trim (JsString.split "," selector)) selectors.

(** A descriptor with another predicate. *)
Definition withPredicate (query : R3QueryMetadata) (p : Predicate) : R3QueryMetadata := {|
  propertyName := propertyName query;
  first := first query;
  predicate := p;
  descendants := descendants query;
  emitDistinctChangesOnly := emitDistinctChangesOnly query;
  read := read query;
  static := static query;
  isSignal := isSignal query
|}.

(** The name of a function expression. *)
Definition functionName (e : o.Expression) : option string :=
  match e with
  | o.FunctionExpr _ _ _ name => name
  | _ => None
  end.

(** The parameters of a call, when the statement is a call. *)
Definition callArguments (s : o.Statement) : option (list o.Expression) :=
  match s with
  | o.ExpressionStatement (o.InvokeFunctionExpr _ args) => Some args
  | _ => None
  end.

(** The creation statements of a list of descriptors, each built against the
    pool as the calls before it left it. *)
Fixpoint createStatementsOf `{Imports} (queryTypeFns : QueryTypeFns)
    (prependParams : option (list o.Expression)) (queries : list R3QueryMetadata)
    (constantPool : ConstantPool) : list o.Statement :=
  match queries with
  | [] => []
  | query :: rest =>
      let '(call, pool) :=
        createQueryCreateCall query constantPool queryTypeFns prependParams in
      o.toStmt call :: createStatementsOf queryTypeFns prependParams rest pool
  end.

(** The instruction pairs of the two synthesizers. *)
Definition viewQueryTypeFns `{Imports} : QueryTypeFns :=
  {| signalBased := viewQuerySignal R3; nonSignal := viewQuery R3 |}.

Definition contentQueryTypeFns `{Imports} : QueryTypeFns :=
  {| nonSignal := contentQuery R3; signalBased := contentQuerySignal R3 |}.

(** The allocator of [render3/view/util.ts] as it behaves on the array it is
    handed: its first call adds the declaration of the variable to the
    statements, and every call returns the same variable. *)
Definition declaringAllocator : TempAllocator := {|
  allocator := string * option string;
  temporaryAllocator := fun statements name => ((name, None), statements);
  tempAllocator := fun '(name, slot) statements =>
    match slot with
    | None =>
        (name, (name, Some name),
         statements ++ [o.DeclareVarStmt name None (Some o.DYNAMIC_TYPE)])
    | Some temp => (temp, (name, slot), statements)
    end
|}.

(** The number of occurrences of a character in a string. *)
Fixpoint occurrences (c : ascii) (s : string) : nat :=
  match s with
  | EmptyString => O
  | String d rest => ((if Ascii.eqb d c then 1 else 0) + occurrences c rest)%nat
  end.

(** A selector piece in normal form: no comma inside, no white space at
    either end. *)
Definition isClean (piece : string) : bool :=
  negb (JsString.contains "," piece)
  && negb (JsString.startsWithWhiteSpace piece)
  && negb (JsString.endsWithWhiteSpace piece).

(** The instruction a statement calls, when the statement is the call of an
    imported instruction. *)
Definition callee (s : o.Statement) : option o.ExternalReference :=
  match s with
  | o.ExpressionStatement (o.InvokeFunctionExpr (o.ExternalExpr reference) _) =>
      Some reference
  | _ => None
  end.

(** A descriptor whose predicate is an expression. *)
Definition hasExpressionPredicate (query : R3QueryMetadata) : bool :=
  match predicate query with
  | MaybeForwardRefExpression _ _ => true
  | Selectors _ => false
  end.

(** A statement that declares a variable. *)
Definition isDeclaration (s : o.Statement) : bool :=
  match s with
  | o.DeclareVarStmt _ _ _ => true
  | _ => false
  end.

(** The declaration that [declaringAllocator] adds for [TEMPORARY_NAME]. *)
Definition temporaryDeclaration `{Imports} : o.Statement :=
  o.DeclareVarStmt TEMPORARY_NAME None (Some o.DYNAMIC_TYPE).

(** The number of signal queries in front of the first query that is not a
    signal. *)
Fixpoint leadingSignals (queries : list R3QueryMetadata) : nat :=
  match queries with
  | [] => O
  | query :: rest => if isSignal query then S (leadingSignals rest) else O
  end.

(** The update statements of a list of descriptors as [declaringAllocator]
    leaves them: one per descriptor, in order, and the declaration in front
    of the first one that uses the temporary. *)
Definition updateStatementsOf `{Imports} (queries : list R3QueryMetadata)
  : list o.Statement :=
  let statements := map updateStatementOf queries in
  if forallb isSignal queries then statements
  else firstn (leadingSignals queries) statements
       ++ temporaryDeclaration :: skipn (leadingSignals queries) statements.

(** * Properties *)

(** ** [split] and [trim] *)

Module JsStringFacts.
Import JsString.

Lemma split_nonempty (sep : ascii) (s : string) : split sep s <> [].
Proof.
  destruct s as [|c rest]; simpl; [discriminate|].
  destruct (Ascii.eqb c sep); [discriminate|].
  destruct (split sep rest); discriminate.
Qed.

(** Joining the pieces with the separator gives the string back. *)
Lemma join_split (sep : ascii) (s : string) :
  join (String sep EmptyString) (split sep s) = s.
Proof.
  induction s as [|c rest IH]; [reflexivity|].
  simpl split. destruct (Ascii.eqb_spec c sep) as [->|Hne].
  - pose proof (split_nonempty sep rest) as Hne.
    destruct (split sep rest) as [|p ps]; [contradiction|].
    change (join (String sep "") ("" :: p :: ps))%string
      with (String sep (join (String sep "") (p :: ps)))%string.
    now rewrite IH.
  - pose proof (split_nonempty sep rest) as Hnil.
    destruct (split sep rest) as [|p ps]; [contradiction|].
    destruct ps as [|p' ps'].
    + simpl in *. now rewrite IH.
    + change (join (String sep "") (String c p :: p' :: ps'))%string
        with (String c (join (String sep "") (p :: p' :: ps')))%string.
      now rewrite IH.
Qed.

(** No piece contains the separator. *)
Lemma split_no_separator (sep : ascii) (s : string) :
  forallb (fun piece => negb (contains sep piece)) (split sep s) = true.
Proof.
  induction s as [|c rest IH]; [reflexivity|].
  simpl split. destruct (Ascii.eqb c sep) eqn:Hc.
  - simpl. exact IH.
  - destruct (split sep rest) as [|p ps]; simpl in *.
    + now rewrite Hc.
    + now rewrite Hc.
Qed.

Lemma trimStart_spec (s : string) :
  exists l, s = (l ++ trimStart s)%string
            /\ allWhiteSpace l = true
            /\ startsWithWhiteSpace (trimStart s) = false.
Proof.
  induction s as [|c rest (l & Heq & Hl & Hs)].
  - exists EmptyString. now simpl.
  - simpl. destruct (isWhiteSpace c) eqn:Hc.
    + exists (String c l). simpl. rewrite Hc, Hl. now rewrite <- Heq.
    + exists EmptyString. simpl. now rewrite Hc.
Qed.

Lemma trimEnd_spec (s : string) :
  exists r, s = (trimEnd s ++ r)%string
            /\ allWhiteSpace r = true
            /\ endsWithWhiteSpace (trimEnd s) = false.
Proof.
  induction s as [|c rest (r & Heq & Hr & He)].
  - exists EmptyString. now simpl.
  - simpl. destruct (trimEnd rest) as [|d t] eqn:Ht.
    + simpl in Heq. subst r. destruct (isWhiteSpace c) eqn:Hc.
      * exists (String c rest). simpl. now rewrite Hc, Hr.
      * exists rest. simpl. now rewrite Hc.
    + exists r. split; [|split; [exact Hr | exact He]].
      change (String c rest = String c (String d t ++ r))%string.
      now rewrite <- Heq.
Qed.

Lemma trimEnd_keeps_start (s : string) :
  startsWithWhiteSpace s = false -> startsWithWhiteSpace (trimEnd s) = false.
Proof.
  destruct s as [|c rest]; simpl; trivial.
  intros Hc. destruct (trimEnd rest); [rewrite Hc|]; simpl; trivial.
Qed.

(** [trim] removes a run of white space at each end, all of it. *)
Lemma trim_spec (s : string) :
  exists l r, s = (l ++ trim s ++ r)%string
              /\ allWhiteSpace l = true /\ allWhiteSpace r = true
              /\ startsWithWhiteSpace (trim s) = false
              /\ endsWithWhiteSpace (trim s) = false.
Proof.
  destruct (trimStart_spec s) as (l & Hl & Hlw & Hs).
  destruct (trimEnd_spec (trimStart s)) as (r & Hr & Hrw & He).
  exists l, r. unfold trim. repeat split; trivial.
  - now rewrite <- Hr.
  - now apply trimEnd_keeps_start.
Qed.

End JsStringFacts.

(** ** Flags *)

(** C3.  The flags of a descriptor are the bitwise OR of [1 << 0] when
    [descendants] is set, [1 << 1] when [static] is set and [1 << 2] when
    [emitDistinctChangesOnly] is set, a trait that is off contributing 0.
    The bits do not interact: the result is the sum of the contributed
    bits, bit 0, 1 and 2 of the result are the three traits, and nothing is
    set above them.  With [descendants] and [emitDistinctChangesOnly] set and
    [static] off the result is [0b0101]. *)
Theorem toQueryFlags_bits (query : R3QueryMetadata) :
  toQueryFlags query
  = Z.lor (Z.lor (if descendants query then Z.shiftl 1 0 else 0)
                 (if static query then Z.shiftl 1 1 else 0))
          (if emitDistinctChangesOnly query then Z.shiftl 1 2 else 0)
  /\ toQueryFlags query
     = Z.b2z (descendants query) * 1 + Z.b2z (static query) * 2
       + Z.b2z (emitDistinctChangesOnly query) * 4
  /\ Z.testbit (toQueryFlags query) 0 = descendants query
  /\ Z.testbit (toQueryFlags query) 1 = static query
  /\ Z.testbit (toQueryFlags query) 2 = emitDistinctChangesOnly query
  /\ 0 <= toQueryFlags query < 8
  /\ toQueryFlags
       {| propertyName := "p"; first := false; predicate := Selectors [];
          descendants := true; emitDistinctChangesOnly := true; read := None;
          static := false; isSignal := false |} = 5.
Proof.
  unfold toQueryFlags.
  destruct (descendants query), (static query), (emitDistinctChangesOnly query);
    cbn; repeat split; solve [reflexivity | lia | discriminate].
Qed.

(** ** Predicates *)

Section PredicateFacts.

Context `{I : Imports}.

Lemma fold_pushSelectors (selectors : list string) (acc : list o.Expression) :
  fold_left pushSelectors selectors acc
  = acc ++ map (fun piece => o.LiteralExpr (o.LitString piece)) (flattenSelectors selectors).
Proof.
  revert acc. induction selectors as [|selector rest IH]; intros acc; simpl.
  - now rewrite app_nil_r.
  - rewrite IH. unfold pushSelectors, o.literal.
    now rewrite map_app, map_map, app_assoc.
Qed.

(** C4.  On a list of selectors [getQueryPredicate] asks the constant pool,
    with the force-shared flag set, for the literal array of the string
    literals of all pieces: every selector in input order, split on commas,
    every piece trimmed, all in one flat list that keeps order and
    duplicates.  The selectors ["a, b"] and ["c"] flatten to ["a"], ["b"],
    ["c"]. *)
Theorem getQueryPredicate_selectors (query : R3QueryMetadata)
    (selectors : list string) (constantPool : ConstantPool)
    (Hpredicate : predicate query = Selectors selectors) :
  getQueryPredicate query constantPool
  = getConstLiteral constantPool
      (o.LiteralArrayExpr
         (map (fun piece => o.LiteralExpr (o.LitString piece))
              (flattenSelectors selectors)))
      true
  /\ flattenSelectors ["a, b"; "c"]%string = ["a"; "b"; "c"]%string
  /\ flattenSelectors [" x ,x"; "x"]%string = ["x"; "x"; "x"]%string.
Proof.
  split; [|split; reflexivity].
  unfold getQueryPredicate. rewrite Hpredicate.
  now rewrite fold_pushSelectors.
Qed.

(** C5.  On an expression tagged [None] or [Unwrapped] [getQueryPredicate]
    returns the expression itself; on one tagged [Wrapped] it returns the
    call of [resolveForwardRef] whose only argument is the expression.  The
    pool is left as it was. *)
Theorem getQueryPredicate_forwardRef (query : R3QueryMetadata)
    (expression : o.Expression) (forwardRef : ForwardRefHandling.t)
    (constantPool : ConstantPool)
    (Hpredicate : predicate query = MaybeForwardRefExpression expression forwardRef) :
  getQueryPredicate query constantPool
  = (match forwardRef with
     | ForwardRefHandling.None | ForwardRefHandling.Unwrapped => expression
     | ForwardRefHandling.Wrapped =>
         o.InvokeFunctionExpr (o.ExternalExpr (resolveForwardRef R3)) [expression]
     end, constantPool).
Proof.
  unfold getQueryPredicate. rewrite Hpredicate. now destruct forwardRef.
Qed.

(** C2, as the code has it.  [getQueryPredicate] has no failing path.  On
    the value of each of the three members of [ForwardRefHandling] the
    [switch] returns what the typed function returns; on a value that is the
    value of no member it matches no [case] and the function returns
    [undefined]; no value of the field makes it throw. *)
Theorem getQueryPredicate_never_throws (query : R3QueryMetadata)
    (expression : o.Expression) (handling : ForwardRefHandling.t) (value : Z)
    (forwardRef : Z) (constantPool : ConstantPool)
    (Hunrecognized : ForwardRefHandling.isMember value = false) :
  getQueryPredicateAtRunTime expression (ForwardRefHandling.value handling)
  = Returned
      (fst (getQueryPredicate
              (withPredicate query (MaybeForwardRefExpression expression handling))
              constantPool))
  /\ getQueryPredicateAtRunTime expression value = ReturnedUndefined
  /\ isThrown (getQueryPredicateAtRunTime expression forwardRef) = false.
Proof.
  repeat split.
  - now destruct handling.
  - unfold ForwardRefHandling.isMember in Hunrecognized. cbn [existsb] in Hunrecognized.
    rewrite orb_false_r in Hunrecognized.
    apply orb_false_elim in Hunrecognized as [Hnone Hrest].
    apply orb_false_elim in Hrest as [Hwrapped Hunwrapped].
    unfold getQueryPredicateAtRunTime. now rewrite Hnone, Hunwrapped, Hwrapped.
  - unfold getQueryPredicateAtRunTime.
    repeat match goal with
           | |- context [if ?test then _ else _] => destruct test
           end; reflexivity.
Qed.

End PredicateFacts.

(** C4 on the sample pool. *)
Lemma getQueryPredicate_selectors_witness :
  getQueryPredicate (I := Sample.imports)
    (Sample.query "refs" (Selectors ["a, b"; "c"; "a"]%string)) []
  = Sample.shareLiteral []
      (o.LiteralArrayExpr
         (map (fun piece => o.LiteralExpr (o.LitString piece))
              (flattenSelectors ["a, b"; "c"; "a"]%string)))
      true
  /\ flattenSelectors ["a, b"; "c"]%string = ["a"; "b"; "c"]%string
  /\ flattenSelectors [" x ,x"; "x"]%string = ["x"; "x"; "x"]%string.
Proof.
  exact (@getQueryPredicate_selectors Sample.imports
           (Sample.query "refs" (Selectors ["a, b"; "c"; "a"]%string))
           ["a, b"; "c"; "a"]%string [] eq_refl).
Defined.

(** C5 on a wrapped expression. *)
Lemma getQueryPredicate_forwardRef_witness :
  getQueryPredicate (I := Sample.imports)
    (Sample.query "dir"
       (MaybeForwardRefExpression (o.Upstream 0) ForwardRefHandling.Wrapped)) []
  = (o.InvokeFunctionExpr (o.ExternalExpr (Sample.core "resolveForwardRef"))
       [o.Upstream 0], []).
Proof.
  exact (@getQueryPredicate_forwardRef Sample.imports
           (Sample.query "dir"
              (MaybeForwardRefExpression (o.Upstream 0) ForwardRefHandling.Wrapped))
           (o.Upstream 0) ForwardRefHandling.Wrapped [] eq_refl).
Defined.

(** C2 as the spec states it fails: the value 3 of [forwardRef] is the value
    of none of the three members, and [getQueryPredicate] returns
    [undefined] on it, it does not throw. *)
Lemma getQueryPredicate_unrecognized_returns :
  ForwardRefHandling.isMember 3 = false
  /\ getQueryPredicateAtRunTime (H := Sample.imports) (o.Upstream 0) 3
     = ReturnedUndefined
  /\ isThrown (getQueryPredicateAtRunTime (H := Sample.imports) (o.Upstream 0) 3)
     = false.
Proof. repeat split; reflexivity. Qed.

(** C2 as the code has it, at the value 7. *)
Lemma getQueryPredicate_never_throws_witness :
  ForwardRefHandling.isMember 7 = false
  /\ getQueryPredicateAtRunTime (H := Sample.imports) (o.Upstream 0) 7
     = ReturnedUndefined.
Proof.
  split; [reflexivity|].
  exact (proj1 (proj2 (@getQueryPredicate_never_throws Sample.imports
                         Sample.signalQuery (o.Upstream 0) ForwardRefHandling.Wrapped
                         7 1 [] eq_refl))).
Defined.

(** ** The creation call *)

Section CreateCallFacts.

Context `{I : Imports}.

Lemma createQueryCreateCall_eq (query : R3QueryMetadata) (constantPool : ConstantPool)
    (queryTypeFns : QueryTypeFns) (prependParams : option (list o.Expression)) :
  createQueryCreateCall query constantPool queryTypeFns prependParams
  = (o.InvokeFunctionExpr
       (o.ExternalExpr
          (if isSignal query then signalBased queryTypeFns else nonSignal queryTypeFns))
       ((match prependParams with Some prepend => prepend | None => [] end)
        ++ (if isSignal query
            then [o.ReadPropExpr (o.ReadVarExpr CONTEXT_NAME) (propertyName query)]
            else [])
        ++ [fst (getQueryPredicate query constantPool)]
        ++ [o.LiteralExpr (o.LitNumber (toQueryFlags query))]
        ++ (match read query with Some token => [token] | None => [] end)),
     snd (getQueryPredicate query constantPool)).
Proof.
  unfold createQueryCreateCall.
  destruct (getQueryPredicate query constantPool) as [queryPredicate pool].
  destruct prependParams as [prepend|], (isSignal query), (read query) as [token|];
    cbn [fst snd app]; unfold o.callFn, o.importExpr, o.literal, o.variable;
    repeat rewrite <- app_assoc; cbn [app]; rewrite ?app_nil_r; reflexivity.
Qed.

Lemma createQueryCreateCall_pool (query : R3QueryMetadata) (constantPool : ConstantPool)
    (queryTypeFns : QueryTypeFns) (prependParams : option (list o.Expression)) :
  snd (createQueryCreateCall query constantPool queryTypeFns prependParams)
  = snd (getQueryPredicate query constantPool).
Proof. now rewrite createQueryCreateCall_eq. Qed.

Lemma createStatementsOf_length (queryTypeFns : QueryTypeFns)
    (prependParams : option (list o.Expression)) (queries : list R3QueryMetadata)
    (constantPool : ConstantPool) :
  List.length (createStatementsOf queryTypeFns prependParams queries constantPool)
  = List.length queries.
Proof.
  revert constantPool. induction queries as [|query rest IH]; intros pool; simpl.
  - reflexivity.
  - destruct (createQueryCreateCall query pool queryTypeFns prependParams).
    simpl. now rewrite IH.
Qed.

Lemma createStatementsOf_nth (queryTypeFns : QueryTypeFns)
    (prependParams : option (list o.Expression))
    (before : list R3QueryMetadata) (query : R3QueryMetadata)
    (after : list R3QueryMetadata) (constantPool : ConstantPool) :
  nth_error
    (createStatementsOf queryTypeFns prependParams (before ++ query :: after) constantPool)
    (List.length before)
  = Some (o.toStmt (fst (createQueryCreateCall query (poolAfter before constantPool)
                           queryTypeFns prependParams))).
Proof.
  revert constantPool. induction before as [|b rest IH]; intros pool; simpl.
  - now destruct (createQueryCreateCall query pool queryTypeFns prependParams).
  - pose proof (createQueryCreateCall_pool b pool queryTypeFns prependParams) as Hpool.
    destruct (createQueryCreateCall b pool queryTypeFns prependParams) as [call pool'].
    simpl in Hpool. subst pool'. simpl. apply IH.
Qed.

Lemma createStatementsOf_prepended (queryTypeFns : QueryTypeFns)
    (prepend : list o.Expression) (queries : list R3QueryMetadata)
    (constantPool : ConstantPool) :
  Forall (fun statement =>
            exists rest, callArguments statement = Some (prepend ++ rest))
    (createStatementsOf queryTypeFns (Some prepend) queries constantPool).
Proof.
  revert constantPool. induction queries as [|query rest IH]; intros pool; simpl.
  - constructor.
  - rewrite createQueryCreateCall_eq. constructor; [|apply IH].
    simpl. eexists. reflexivity.
Qed.

End CreateCallFacts.

(** ** The loops *)

Lemma fold_left_ext {S Q : Type} (f g : S -> Q -> S) (l : list Q) (s : S) :
  (forall s q, f s q = g s q) -> fold_left f l s = fold_left g l s.
Proof.
  intros Hfg. revert s. induction l as [|q l IH]; intros s; simpl; [reflexivity|].
  now rewrite Hfg, IH.
Qed.

Section LoopFacts.

Context `{I : Imports} `{A : TempAllocator}.

(** Both loop bodies are the shared step, at their own parameters. *)
Lemma viewQueriesCallback_shared (st : QueriesState) (query : R3QueryMetadata) :
  viewQueriesCallback st query = sharedStep viewQueryTypeFns None st query.
Proof.
  unfold viewQueriesCallback, sharedStep, viewQueryTypeFns.
  destruct (createQueryCreateCall _ _ _ _) as [call pool].
  destruct (isSignal query); [reflexivity|].
  now destruct (tempAllocator _ _) as [[temporary allocState] updates].
Qed.

Lemma contentQueriesBody_shared (st : QueriesState) (query : R3QueryMetadata) :
  contentQueriesBody st query
  = sharedStep contentQueryTypeFns (Some [o.variable "dirIndex"]) st query.
Proof.
  unfold contentQueriesBody, sharedStep, contentQueryTypeFns.
  destruct (createQueryCreateCall _ _ _ _) as [call pool].
  destruct (isSignal query); [reflexivity|].
  now destruct (tempAllocator _ _) as [[temporary allocState] updates].
Qed.

Variable queryTypeFns : QueryTypeFns.
Variable prependParams : option (list o.Expression).

Lemma sharedStep_update (st : QueriesState) (query : R3QueryMetadata) :
  (updateStatements (sharedStep queryTypeFns prependParams st query),
   tempAllocatorState (sharedStep queryTypeFns prependParams st query))
  = updateStep (updateStatements st, tempAllocatorState st) query.
Proof.
  unfold sharedStep, updateStep.
  destruct (createQueryCreateCall _ _ _ _) as [call pool].
  destruct (isSignal query); [reflexivity|]. cbn [fst snd].
  now destruct (tempAllocator _ _) as [[temporary allocState] updates].
Qed.

Lemma sharedStep_create (st : QueriesState) (query : R3QueryMetadata) :
  createStatements (sharedStep queryTypeFns prependParams st query)
  = createStatements st
    ++ [o.toStmt (fst (createQueryCreateCall query (poolState st)
                         queryTypeFns prependParams))]
  /\ poolState (sharedStep queryTypeFns prependParams st query)
     = snd (getQueryPredicate query (poolState st)).
Proof.
  rewrite <- (createQueryCreateCall_pool query (poolState st) queryTypeFns prependParams).
  unfold sharedStep.
  destruct (createQueryCreateCall _ _ _ _) as [call pool].
  destruct (isSignal query); [now split|].
  now destruct (tempAllocator _ _) as [[temporary allocState] updates].
Qed.

(** The update side of the loop never looks at the creation side. *)
Lemma sharedLoop_update (queries : list R3QueryMetadata) (st : QueriesState) :
  (updateStatements (fold_left (sharedStep queryTypeFns prependParams) queries st),
   tempAllocatorState (fold_left (sharedStep queryTypeFns prependParams) queries st))
  = fold_left updateStep queries (updateStatements st, tempAllocatorState st).
Proof.
  revert st. induction queries as [|query rest IH]; intros st; simpl; [reflexivity|].
  now rewrite IH, sharedStep_update.
Qed.

Lemma sharedLoop_create (queries : list R3QueryMetadata) (st : QueriesState) :
  createStatements (fold_left (sharedStep queryTypeFns prependParams) queries st)
  = createStatements st
    ++ createStatementsOf queryTypeFns prependParams queries (poolState st)
  /\ poolState (fold_left (sharedStep queryTypeFns prependParams) queries st)
     = poolAfter queries (poolState st).
Proof.
  revert st. induction queries as [|query rest IH]; intros st; simpl.
  - now rewrite app_nil_r.
  - destruct (IH (sharedStep queryTypeFns prependParams st query)) as [Hc Hp].
    destruct (sharedStep_create st query) as [Hc1 Hp1].
    rewrite Hc, Hp, Hc1, Hp1.
    rewrite <- (createQueryCreateCall_pool query (poolState st) queryTypeFns prependParams).
    destruct (createQueryCreateCall _ _ _ _) as [call pool].
    cbn [fst snd]. now rewrite <- app_assoc.
Qed.

Lemma initialState_create (constantPool : ConstantPool) :
  createStatements (initialState constantPool) = []
  /\ poolState (initialState constantPool) = constantPool.
Proof.
  unfold initialState. now destruct (temporaryAllocator _ _).
Qed.

End LoopFacts.

(** ** The allocator that declares its variable *)

Section DeclaringAllocatorFacts.

Context `{I : Imports}.

Lemma updateStatementsOf_signal (query : R3QueryMetadata)
    (rest : list R3QueryMetadata) :
  isSignal query = true ->
  updateStatementsOf (query :: rest) = advanceStatement :: updateStatementsOf rest.
Proof.
  intros Hsignal. unfold updateStatementsOf, updateStatementOf.
  cbn [map forallb leadingSignals]. rewrite Hsignal. cbn [andb].
  now destruct (forallb isSignal rest).
Qed.

Lemma updateStatementsOf_temporary (query : R3QueryMetadata)
    (rest : list R3QueryMetadata) :
  isSignal query = false ->
  updateStatementsOf (query :: rest)
  = temporaryDeclaration :: refreshStatement query TEMPORARY_NAME
      :: map updateStatementOf rest.
Proof.
  intros Hsignal. unfold updateStatementsOf, updateStatementOf.
  cbn [map forallb leadingSignals]. now rewrite Hsignal.
Qed.

(** Once the variable is declared every descriptor adds its statement and
    nothing else. *)
Lemma declared_updateLoop (queries : list R3QueryMetadata)
    (updates : list o.Statement) :
  fold_left (updateStep (H0 := declaringAllocator)) queries
    (updates, (TEMPORARY_NAME, Some TEMPORARY_NAME))
  = (updates ++ map updateStatementOf queries, (TEMPORARY_NAME, Some TEMPORARY_NAME)).
Proof.
  revert updates. induction queries as [|query rest IH]; intros updates.
  - cbn. now rewrite app_nil_r.
  - cbn [fold_left map].
    replace (updateStep (H0 := declaringAllocator)
               (updates, (TEMPORARY_NAME, Some TEMPORARY_NAME)) query)
      with (updates ++ [updateStatementOf query],
            (TEMPORARY_NAME, Some TEMPORARY_NAME))
      by (unfold updateStep, updateStatementOf; now destruct (isSignal query)).
    rewrite IH. now rewrite <- app_assoc.
Qed.

Lemma declaring_updateLoop (queries : list R3QueryMetadata)
    (updates : list o.Statement) :
  fst (fold_left (updateStep (H0 := declaringAllocator)) queries
         (updates, (TEMPORARY_NAME, None)))
  = updates ++ updateStatementsOf queries.
Proof.
  revert updates. induction queries as [|query rest IH]; intros updates.
  - cbn. now rewrite app_nil_r.
  - cbn [fold_left]. destruct (isSignal query) eqn:Hsignal.
    + replace (updateStep (H0 := declaringAllocator)
                 (updates, (TEMPORARY_NAME, None)) query)
        with (updates ++ [advanceStatement], (TEMPORARY_NAME, @None string))
        by (unfold updateStep; now rewrite Hsignal).
      rewrite IH, (@updateStatementsOf_signal query rest Hsignal). now rewrite <- app_assoc.
    + replace (updateStep (H0 := declaringAllocator)
                 (updates, (TEMPORARY_NAME, None)) query)
        with ((updates ++ [temporaryDeclaration])
              ++ [refreshStatement query TEMPORARY_NAME],
              (TEMPORARY_NAME, Some TEMPORARY_NAME))
        by (unfold updateStep; now rewrite Hsignal).
      rewrite declared_updateLoop, (@updateStatementsOf_temporary query rest Hsignal).
      cbn [fst]. now rewrite <- !app_assoc.
Qed.

Lemma declaring_sharedLoop (queryTypeFns : QueryTypeFns)
    (prependParams : option (list o.Expression))
    (queries : list R3QueryMetadata) (constantPool : ConstantPool) :
  updateStatements
    (fold_left (sharedStep (A := declaringAllocator) queryTypeFns prependParams)
       queries (initialState constantPool))
  = updateStatementsOf queries.
Proof.
  pose proof (sharedLoop_update (A := declaringAllocator) queryTypeFns
                prependParams queries (initialState constantPool)) as Hupdate.
  change (updateStatements (initialState (A := declaringAllocator) constantPool),
          tempAllocatorState (initialState (A := declaringAllocator) constantPool))
    with (@nil o.Statement, (TEMPORARY_NAME, @None string)) in Hupdate.
  apply (f_equal fst) in Hupdate. cbn [fst] in Hupdate. rewrite Hupdate.
  exact (declaring_updateLoop queries []).
Qed.

Lemma updateStatementsOf_length (queries : list R3QueryMetadata) :
  List.length (updateStatementsOf queries)
  = (List.length queries + if forallb isSignal queries then 0 else 1)%nat.
Proof.
  unfold updateStatementsOf. destruct (forallb isSignal queries).
  - rewrite length_map. lia.
  - rewrite length_app. cbn [List.length]. rewrite Nat.add_succ_r, <- length_app.
    rewrite firstn_skipn, length_map. lia.
Qed.

Lemma updateStatementOf_filter (queries : list R3QueryMetadata) :
  filter (fun statement => negb (isDeclaration statement))
    (map updateStatementOf queries)
  = map updateStatementOf queries.
Proof.
  induction queries as [|query rest IH]; [reflexivity|].
  cbn [map filter]. rewrite IH.
  unfold updateStatementOf. now destruct (isSignal query).
Qed.

Lemma updateStatementsOf_filter (queries : list R3QueryMetadata) :
  filter (fun statement => negb (isDeclaration statement)) (updateStatementsOf queries)
  = map updateStatementOf queries.
Proof.
  unfold updateStatementsOf. destruct (forallb isSignal queries).
  - apply updateStatementOf_filter.
  - rewrite filter_app. cbn [filter temporaryDeclaration isDeclaration negb].
    rewrite <- filter_app, firstn_skipn. apply updateStatementOf_filter.
Qed.

End DeclaringAllocatorFacts.

(** ** The two synthesizers *)

(** C1, as the code has it.  For any allocator and pool the loops of
    [createViewQueriesFunction] and of [createContentQueriesFunction] leave
    one creation statement per descriptor, in descriptor order: the list has
    the length of the input and its entry at the position of a descriptor is
    the creation call of that descriptor.  The update statements are handed
    to the allocator, which adds the declaration of the temporary at its
    first call: they are one statement per descriptor, in descriptor order,
    with the declaration in front of the statement of the first descriptor
    that is not a signal query; as many as the descriptors when all are
    signal queries, one more otherwise. *)
Theorem statements_per_descriptor `{I : Imports} `{A : TempAllocator}
    (queries before after : list R3QueryMetadata) (query : R3QueryMetadata)
    (constantPool : ConstantPool) :
  let dirIndex := Some [o.ReadVarExpr "dirIndex"] in
  let viewUpdates queries :=
    updateStatements
      (viewQueriesStatements (A := declaringAllocator) queries constantPool) in
  let contentUpdates queries :=
    updateStatements
      (contentQueriesStatements (A := declaringAllocator) queries constantPool) in
  let perDescriptor := map updateStatementOf queries in
  (List.length (createStatements (viewQueriesStatements queries constantPool))
   = List.length queries
   /\ List.length (createStatements (contentQueriesStatements queries constantPool))
      = List.length queries
   /\ nth_error
        (createStatements (viewQueriesStatements (before ++ query :: after) constantPool))
        (List.length before)
      = Some (o.ExpressionStatement
                (fst (createQueryCreateCall query (poolAfter before constantPool)
                        viewQueryTypeFns None)))
   /\ nth_error
        (createStatements
           (contentQueriesStatements (before ++ query :: after) constantPool))
        (List.length before)
      = Some (o.ExpressionStatement
                (fst (createQueryCreateCall query (poolAfter before constantPool)
                        contentQueryTypeFns dirIndex))))
  /\ (viewUpdates queries
      = (if forallb isSignal queries then perDescriptor
         else firstn (leadingSignals queries) perDescriptor
              ++ o.DeclareVarStmt TEMPORARY_NAME None (Some o.DYNAMIC_TYPE)
                 :: skipn (leadingSignals queries) perDescriptor)
      /\ contentUpdates queries = viewUpdates queries
      /\ List.length (viewUpdates queries)
         = (List.length queries + if forallb isSignal queries then 0 else 1)%nat
      /\ filter (fun statement => negb (isDeclaration statement)) (viewUpdates queries)
         = perDescriptor).
Proof.
  intros dirIndex viewUpdates contentUpdates perDescriptor.
  subst dirIndex viewUpdates contentUpdates perDescriptor. cbv beta.
  assert (Hview : forall (A' : TempAllocator) qs,
             viewQueriesStatements (A := A') qs constantPool
             = fold_left (sharedStep (A := A') viewQueryTypeFns None)
                 qs (initialState constantPool))
    by (intros A' qs; apply fold_left_ext, viewQueriesCallback_shared).
  assert (Hcontent : forall (A' : TempAllocator) qs,
             contentQueriesStatements (A := A') qs constantPool
             = fold_left (sharedStep (A := A') contentQueryTypeFns
                            (Some [o.variable "dirIndex"]))
                 qs (initialState constantPool))
    by (intros A' qs; apply fold_left_ext, contentQueriesBody_shared).
  assert (Hcreate : forall fns prepend qs,
             createStatements
               (fold_left (sharedStep fns prepend) qs (initialState constantPool))
             = createStatementsOf fns prepend qs constantPool).
  { intros fns prepend qs.
    destruct (sharedLoop_create fns prepend qs (initialState constantPool)) as [-> _].
    now destruct (initialState_create constantPool) as [-> ->]. }
  split.
  - rewrite !Hview, !Hcontent, !Hcreate.
    rewrite !createStatementsOf_length, !createStatementsOf_nth. now repeat split.
  - rewrite !Hview, !Hcontent, !declaring_sharedLoop.
    repeat split.
    + apply updateStatementsOf_length.
    + apply updateStatementsOf_filter.
Qed.

(** C6.  [createQueryCreateCall] returns one call, of [signalBased] for a
    signal query and of [nonSignal] otherwise, whose arguments are, in this
    order: the prepended arguments; for a signal query the read of the
    property off the context; the predicate; the flags as a literal; the
    [read] token when there is one.  [createContentQueriesFunction] emits one
    creation statement per descriptor, and the one at the position of a
    descriptor is the call of [contentQuerySignal] or [contentQuery] whose
    arguments are [dirIndex] first, then those of the descriptor in the order
    above; so every creation statement it emits is a call whose first
    argument is [dirIndex]. *)
Theorem createQueryCreateCall_arguments `{I : Imports} `{A : TempAllocator}
    (query : R3QueryMetadata) (constantPool : ConstantPool)
    (queryTypeFns : QueryTypeFns) (prependParams : option (list o.Expression))
    (queries before after : list R3QueryMetadata) :
  createQueryCreateCall query constantPool queryTypeFns prependParams
  = (o.InvokeFunctionExpr
       (o.ExternalExpr
          (if isSignal query then signalBased queryTypeFns else nonSignal queryTypeFns))
       ((match prependParams with Some prepend => prepend | None => [] end)
        ++ (if isSignal query
            then [o.ReadPropExpr (o.ReadVarExpr CONTEXT_NAME) (propertyName query)]
            else [])
        ++ [fst (getQueryPredicate query constantPool)]
        ++ [o.LiteralExpr (o.LitNumber (toQueryFlags query))]
        ++ (match read query with Some token => [token] | None => [] end)),
     snd (getQueryPredicate query constantPool))
  /\ Forall (fun statement =>
               exists rest,
                 callArguments statement = Some (o.ReadVarExpr "dirIndex" :: rest))
       (createStatements (contentQueriesStatements queries constantPool))
  /\ List.length (createStatements (contentQueriesStatements queries constantPool))
     = List.length queries
  /\ nth_error
       (createStatements
          (contentQueriesStatements (before ++ query :: after) constantPool))
       (List.length before)
     = Some
         (o.ExpressionStatement
            (o.InvokeFunctionExpr
               (o.ExternalExpr
                  (if isSignal query then contentQuerySignal R3 else contentQuery R3))
               (o.ReadVarExpr "dirIndex"
                :: (if isSignal query
                    then [o.ReadPropExpr (o.ReadVarExpr CONTEXT_NAME)
                            (propertyName query)]
                    else [])
                   ++ [fst (getQueryPredicate query (poolAfter before constantPool))]
                   ++ [o.LiteralExpr (o.LitNumber (toQueryFlags query))]
                   ++ (match read query with Some token => [token] | None => [] end)))).
Proof.
  split; [apply createQueryCreateCall_eq|].
  assert (Hcreate : forall qs,
             createStatements (contentQueriesStatements qs constantPool)
             = createStatementsOf contentQueryTypeFns (Some [o.variable "dirIndex"])
                 qs constantPool).
  { intros qs. unfold contentQueriesStatements.
    rewrite (fold_left_ext _ _ _ _ contentQueriesBody_shared).
    destruct (sharedLoop_create contentQueryTypeFns (Some [o.variable "dirIndex"])
                qs (initialState constantPool)) as [-> _].
    now destruct (initialState_create constantPool) as [-> ->]. }
  rewrite !Hcreate. split; [|split].
  - exact (createStatementsOf_prepended contentQueryTypeFns [o.variable "dirIndex"]
             queries constantPool).
  - apply createStatementsOf_length.
  - rewrite createStatementsOf_nth, createQueryCreateCall_eq. reflexivity.
Qed.

(** C7.  For a signal query the body of either loop appends one statement
    to the update statements, the call of [queryAdvance] without arguments,
    whatever [first] is, and does not touch the allocator. *)
Theorem signal_query_update `{I : Imports} `{A : TempAllocator}
    (st : QueriesState) (query : R3QueryMetadata)
    (Hsignal : isSignal query = true) :
  let advance :=
    o.ExpressionStatement (o.InvokeFunctionExpr (o.ExternalExpr (queryAdvance R3)) []) in
  (updateStatements (viewQueriesCallback st query) = updateStatements st ++ [advance]
   /\ tempAllocatorState (viewQueriesCallback st query) = tempAllocatorState st)
  /\ (updateStatements (contentQueriesBody st query) = updateStatements st ++ [advance]
      /\ tempAllocatorState (contentQueriesBody st query) = tempAllocatorState st).
Proof.
  unfold viewQueriesCallback, contentQueriesBody.
  destruct (createQueryCreateCall query (poolState st) _ None) as [call1 pool1].
  destruct (createQueryCreateCall query (poolState st) _ (Some _)) as [call2 pool2].
  rewrite Hsignal. now repeat split.
Qed.

(** C8.  For a query that is not a signal the body of either loop asks the
    allocator for the temporary and then appends one statement, the
    logical AND of the call of [queryRefresh] on the assignment of the call
    of [loadQuery] to the temporary, and of the write of the property of the
    context: of [temporary.first] when [first] is set, of the temporary
    otherwise.  The allocator of the spec leaves the statements as they are,
    so that the update statements grow by this statement alone. *)
Theorem non_signal_query_update `{I : Imports} `{A : TempAllocator}
    (st : QueriesState) (st' : QueriesState (H0 := specTemporaryAllocator))
    (query : R3QueryMetadata)
    (Hsignal : isSignal query = false) :
  let refreshAndWrite temporary :=
    o.ExpressionStatement
      (o.BinaryOperatorExpr o.And
         (o.InvokeFunctionExpr (o.ExternalExpr (queryRefresh R3))
            [o.WriteVarExpr temporary
               (o.InvokeFunctionExpr (o.ExternalExpr (loadQuery R3)) [])])
         (o.WritePropExpr (o.ReadVarExpr CONTEXT_NAME) (propertyName query)
            (if first query
             then o.ReadPropExpr (o.ReadVarExpr temporary) "first"
             else o.ReadVarExpr temporary))) in
  let allocated := tempAllocator (tempAllocatorState st) (updateStatements st) in
  let allocated' :=
    tempAllocator (TempAllocator := specTemporaryAllocator)
      (tempAllocatorState st') (updateStatements st') in
  (updateStatements (viewQueriesCallback st query)
   = snd allocated ++ [refreshAndWrite (fst (fst allocated))]
   /\ updateStatements (contentQueriesBody st query)
      = snd allocated ++ [refreshAndWrite (fst (fst allocated))])
  /\ (updateStatements (viewQueriesCallback st' query)
      = updateStatements st' ++ [refreshAndWrite (fst (fst allocated'))]
      /\ updateStatements (contentQueriesBody st' query)
         = updateStatements st' ++ [refreshAndWrite (fst (fst allocated'))]).
Proof.
  intros refreshAndWrite allocated allocated'. subst allocated allocated'.
  unfold viewQueriesCallback, contentQueriesBody.
  destruct (createQueryCreateCall query (poolState st) _ None) as [call1 pool1].
  destruct (createQueryCreateCall query (poolState st) _ (Some _)) as [call2 pool2].
  destruct (createQueryCreateCall query (poolState st') _ None) as [call3 pool3].
  destruct (createQueryCreateCall query (poolState st') _ (Some _)) as [call4 pool4].
  rewrite Hsignal. split.
  - now destruct (tempAllocator (tempAllocatorState st) (updateStatements st))
      as [[temporary allocState] updates].
  - destruct st' as [creates' updates' [name' [temp'|]] pool']; now cbn.
Qed.

(** C9, as the code has it.  For a name that is not the empty string the
    function built by [createViewQueriesFunction] is named [name_Query] and
    the one built by [createContentQueriesFunction] [name_ContentQueries]:
    [Foo] gives [Foo_Query] and [Foo_ContentQueries].  Without a name, and
    with the empty string for a name, the function has no name. *)
Theorem function_names `{I : Imports} `{A : TempAllocator}
    (queries : list R3QueryMetadata) (constantPool : ConstantPool)
    (c : ascii) (rest : string) :
  let viewName name := functionName (fst (createViewQueriesFunction queries constantPool name)) in
  let contentName name :=
    functionName (fst (createContentQueriesFunction queries constantPool name)) in
  (viewName (Some (String c rest)) = Some (String c rest ++ "_Query")%string
   /\ contentName (Some (String c rest)) = Some (String c rest ++ "_ContentQueries")%string)
  /\ (viewName (Some "Foo"%string) = Some "Foo_Query"%string
      /\ contentName (Some "Foo"%string) = Some "Foo_ContentQueries"%string)
  /\ (viewName None = None /\ contentName None = None)
  /\ (viewName (Some ""%string) = None /\ contentName (Some ""%string) = None).
Proof. cbn. now repeat split. Qed.

(** C10.  On the same descriptors and pool the two loops end with the same
    update statements, the same allocator state and the same pool, whatever
    the allocator and the pool do.  Each function is the shared synthesizer
    at its own creation instructions, prepended arguments, extra parameters
    and name suffix. *)
Theorem content_updates_are_view_updates `{I : Imports} `{A : TempAllocator}
    (queries : list R3QueryMetadata) (constantPool : ConstantPool)
    (name : option string) :
  (updateStatements (contentQueriesStatements queries constantPool)
   = updateStatements (viewQueriesStatements queries constantPool)
   /\ tempAllocatorState (contentQueriesStatements queries constantPool)
      = tempAllocatorState (viewQueriesStatements queries constantPool)
   /\ poolState (contentQueriesStatements queries constantPool)
      = poolState (viewQueriesStatements queries constantPool))
  /\ createViewQueriesFunction queries constantPool name
     = sharedSynthesizer
         {| signalBased := viewQuerySignal R3; nonSignal := viewQuery R3 |}
         None [] "_Query" queries constantPool name
  /\ createContentQueriesFunction queries constantPool name
     = sharedSynthesizer
         {| signalBased := contentQuerySignal R3; nonSignal := contentQuery R3 |}
         (Some [o.ReadVarExpr "dirIndex"])
         [ {| o.param_name := "dirIndex"; o.param_type := None |} ]
         "_ContentQueries" queries constantPool name.
Proof.
  assert (Hview :
            viewQueriesStatements queries constantPool
            = fold_left (sharedStep viewQueryTypeFns None) queries
                (initialState constantPool))
    by apply fold_left_ext, viewQueriesCallback_shared.
  assert (Hcontent :
            contentQueriesStatements queries constantPool
            = fold_left (sharedStep contentQueryTypeFns (Some [o.variable "dirIndex"]))
                queries (initialState constantPool))
    by apply fold_left_ext, contentQueriesBody_shared.
  split; [|split].
  - pose proof (sharedLoop_update viewQueryTypeFns None queries
                  (initialState constantPool)) as Hv.
    pose proof (sharedLoop_update contentQueryTypeFns (Some [o.variable "dirIndex"])
                  queries (initialState constantPool)) as Hc.
    rewrite <- Hview in Hv. rewrite <- Hcontent in Hc.
    rewrite <- Hv in Hc. inversion Hc as [[Hupdates Halloc]].
    repeat split; trivial.
    rewrite Hview, Hcontent.
    destruct (sharedLoop_create viewQueryTypeFns None queries
                (initialState constantPool)) as [_ ->].
    now destruct (sharedLoop_create contentQueryTypeFns (Some [o.variable "dirIndex"])
                    queries (initialState constantPool)) as [_ ->].
  - unfold createViewQueriesFunction, sharedSynthesizer.
    now rewrite Hview.
  - unfold createContentQueriesFunction, sharedSynthesizer.
    now rewrite Hcontent.
Qed.

(** ** The claims at sample inputs *)

(** C7 at the signal query of the sample, from the start of the loop. *)
Lemma signal_query_update_witness :
  isSignal Sample.signalQuery = true
  /\ updateStatements (viewQueriesCallback Sample.start Sample.signalQuery)
     = [o.ExpressionStatement
          (o.InvokeFunctionExpr (o.ExternalExpr (Sample.core "queryAdvance")) [])]
  /\ updateStatements (contentQueriesBody Sample.start Sample.signalQuery)
     = [o.ExpressionStatement
          (o.InvokeFunctionExpr (o.ExternalExpr (Sample.core "queryAdvance")) [])].
Proof.
  pose proof (@signal_query_update Sample.imports specTemporaryAllocator
                Sample.start Sample.signalQuery eq_refl) as [[Hview _] [Hcontent _]].
  split; [reflexivity|]. split; [exact Hview | exact Hcontent].
Defined.

(** C8 at the first query of the sample, from the start of the loop. *)
Lemma non_signal_query_update_witness :
  isSignal Sample.firstQuery = false
  /\ updateStatements (viewQueriesCallback Sample.start Sample.firstQuery)
     = [o.ExpressionStatement
          (o.BinaryOperatorExpr o.And
             (o.InvokeFunctionExpr (o.ExternalExpr (Sample.core "queryRefresh"))
                [o.WriteVarExpr "_t"
                   (o.InvokeFunctionExpr (o.ExternalExpr (Sample.core "loadQuery")) [])])
             (o.WritePropExpr (o.ReadVarExpr "ctx") "item"
                (o.ReadPropExpr (o.ReadVarExpr "_t") "first")))].
Proof.
  pose proof (@non_signal_query_update Sample.imports specTemporaryAllocator
                Sample.start Sample.start Sample.firstQuery eq_refl)
    as [_ [Hview _]].
  split; [reflexivity | exact Hview].
Defined.

(** C9 as the spec states it fails at the empty string: the name is a
    string, and the function is not named [_Query] but has no name. *)
Lemma empty_name_is_anonymous :
  functionName
    (fst (createViewQueriesFunction (I := Sample.imports) (A := specTemporaryAllocator)
            [] [] (Some ""%string)))
  <> Some ("" ++ "_Query")%string
  /\ functionName
       (fst (createContentQueriesFunction (I := Sample.imports)
               (A := specTemporaryAllocator) [] [] (Some ""%string)))
     <> Some ("" ++ "_ContentQueries")%string.
Proof. split; discriminate. Qed.

(** The end-to-end example of the spec, with the allocator that declares
    its variable: the two descriptors give two creation calls, with flags
    [0b0001] then [0b0000]; the update statements are the declaration of the
    temporary, the guarded assignment of [.first] and one call of
    [queryAdvance], in that order. *)
Example end_to_end :
  let st :=
    viewQueriesStatements (I := Sample.imports) (A := declaringAllocator)
      [Sample.firstQuery; Sample.signalQuery] [] in
  createStatements st
  = [o.ExpressionStatement
       (o.InvokeFunctionExpr (o.ExternalExpr (Sample.core "viewQuery"))
          [o.ReadVarExpr "_c0"; o.LiteralExpr (o.LitNumber 1)]);
     o.ExpressionStatement
       (o.InvokeFunctionExpr (o.ExternalExpr (Sample.core "viewQuerySignal"))
          [o.ReadPropExpr (o.ReadVarExpr "ctx") "items"; o.Upstream 0;
           o.LiteralExpr (o.LitNumber 0)])]
  /\ updateStatements st
     = [o.DeclareVarStmt "_t" None (Some o.DYNAMIC_TYPE);
        o.ExpressionStatement
          (o.BinaryOperatorExpr o.And
             (o.InvokeFunctionExpr (o.ExternalExpr (Sample.core "queryRefresh"))
                [o.WriteVarExpr "_t"
                   (o.InvokeFunctionExpr (o.ExternalExpr (Sample.core "loadQuery")) [])])
             (o.WritePropExpr (o.ReadVarExpr "ctx") "item"
                (o.ReadPropExpr (o.ReadVarExpr "_t") "first")));
        o.ExpressionStatement
          (o.InvokeFunctionExpr (o.ExternalExpr (Sample.core "queryAdvance")) [])].
Proof. split; reflexivity. Qed.

(** C1 as the spec states it fails: three descriptors, a signal query and
    two that are not, give four update statements, and the one at position 1
    is the declaration of the temporary, not the statement of descriptor 1. *)
Lemma update_statements_outnumber_descriptors :
  let queries :=
    [Sample.signalQuery; Sample.firstQuery;
     Sample.query "list" (Selectors ["ref"%string])] in
  let view :=
    viewQueriesStatements (I := Sample.imports) (A := declaringAllocator) queries [] in
  let content :=
    contentQueriesStatements (I := Sample.imports) (A := declaringAllocator)
      queries [] in
  List.length queries = 3%nat
  /\ List.length (updateStatements view) = 4%nat
  /\ List.length (updateStatements content) = 4%nat
  /\ nth_error (updateStatements view) 1
     = Some (o.DeclareVarStmt "_t" None (Some o.DYNAMIC_TYPE))
  /\ nth_error (updateStatements content) 1
     = Some (o.DeclareVarStmt "_t" None (Some o.DYNAMIC_TYPE)).
Proof. repeat split; reflexivity. Qed.

(** * Further properties *)

(** ** Strings *)

Module JsStringMore.
Import JsString.

Lemma contains_app (c : ascii) (a b : string) :
  contains c (a ++ b)%string = contains c a || contains c b.
Proof.
  induction a as [|d a IH]; simpl; [reflexivity|].
  now rewrite IH, orb_assoc.
Qed.

Lemma split_length (sep : ascii) (s : string) :
  List.length (split sep s) = S (occurrences sep s).
Proof.
  induction s as [|c rest IH]; [reflexivity|].
  simpl. destruct (Ascii.eqb c sep); simpl.
  - now rewrite IH.
  - destruct (split sep rest) as [|p ps]; [discriminate IH | exact IH].
Qed.

Lemma split_without_separator (sep : ascii) (s : string) :
  contains sep s = false -> split sep s = [s].
Proof.
  induction s as [|c rest IH]; [reflexivity|].
  simpl. intros H. apply orb_false_elim in H as [Hc Hrest].
  now rewrite Hc, (IH Hrest).
Qed.

Lemma split_app_separator (sep : ascii) (a b : string) :
  contains sep a = false ->
  split sep (a ++ String sep b)%string = a :: split sep b.
Proof.
  induction a as [|c a IH]; simpl.
  - intros _. now rewrite Ascii.eqb_refl.
  - intros H. apply orb_false_elim in H as [Hc Ha].
    now rewrite Hc, (IH Ha).
Qed.

Lemma trimStart_id (s : string) :
  startsWithWhiteSpace s = false -> trimStart s = s.
Proof. destruct s as [|c rest]; simpl; [reflexivity | now intros ->]. Qed.

Lemma trimEnd_id (s : string) :
  endsWithWhiteSpace s = false -> trimEnd s = s.
Proof.
  induction s as [|c rest IH]; [reflexivity|].
  destruct rest as [|d t].
  - simpl. now intros ->.
  - intros H. change (endsWithWhiteSpace (String d t) = false) in H.
    change (trimEnd (String c (String d t)))
      with (match trimEnd (String d t) with
            | EmptyString =>
                if isWhiteSpace c then EmptyString else String c EmptyString
            | rest' => String c rest'
            end).
    now rewrite (IH H).
Qed.

Lemma trim_id (s : string) :
  startsWithWhiteSpace s = false -> endsWithWhiteSpace s = false -> trim s = s.
Proof.
  intros Hs He. unfold trim. rewrite (trimStart_id _ Hs). now apply trimEnd_id.
Qed.

(** A trimmed piece of a split is in normal form. *)
Lemma trim_clean (s : string) :
  contains "," s = false -> isClean (trim s) = true.
Proof.
  intros Hc. destruct (JsStringFacts.trim_spec s) as (l & r & Heq & _ & _ & Hs & He).
  rewrite Heq in Hc. rewrite !contains_app in Hc.
  apply orb_false_elim in Hc as [_ Hc]. apply orb_false_elim in Hc as [Hc _].
  unfold isClean. now rewrite Hc, Hs, He.
Qed.

Lemma clean_piece (piece : string) :
  isClean piece = true -> map trim (split "," piece) = [piece].
Proof.
  unfold isClean. intros H.
  apply andb_true_iff in H as [H He]. apply andb_true_iff in H as [Hc Hs].
  apply negb_true_iff in Hc, Hs, He.
  rewrite (split_without_separator _ _ Hc). simpl. now rewrite trim_id.
Qed.

Lemma length_append (a b : string) :
  String.length (a ++ b)%string = (String.length a + String.length b)%nat.
Proof. induction a as [|c a IH]; simpl; [reflexivity | now rewrite IH]. Qed.

Lemma append_assoc (a b c : string) :
  ((a ++ b) ++ c = a ++ (b ++ c))%string.
Proof. induction a as [|d a IH]; simpl; [reflexivity | now rewrite IH]. Qed.

Lemma append_inv_tail (a b s : string) :
  (a ++ s = b ++ s)%string -> a = b.
Proof.
  revert b. induction a as [|c a IH]; intros [|d b] H.
  - reflexivity.
  - apply (f_equal String.length) in H. simpl in H. rewrite length_append in H. lia.
  - apply (f_equal String.length) in H. simpl in H. rewrite length_append in H. lia.
  - simpl in H. injection H as -> H. now rewrite (IH b H).
Qed.

Lemma append_last (a b : string) (x y : ascii) :
  (a ++ String x "" = b ++ String y "")%string -> x = y.
Proof.
  revert b. induction a as [|c a IH]; intros [|d b] H; simpl in H.
  - now injection H.
  - injection H as _ H. now destruct b.
  - injection H as _ H. now destruct a.
  - injection H as _ H. exact (IH b H).
Qed.

End JsStringMore.

(** ** Flags *)

(** X1.  The encoding of the flags is lossless: two descriptors have the
    same flags exactly when they agree on [descendants], [static] and
    [emitDistinctChangesOnly]. *)
Theorem toQueryFlags_injective (query1 query2 : R3QueryMetadata) :
  toQueryFlags query1 = toQueryFlags query2
  <-> (descendants query1, static query1, emitDistinctChangesOnly query1)
      = (descendants query2, static query2, emitDistinctChangesOnly query2).
Proof.
  unfold toQueryFlags. split.
  - destruct (descendants query1), (static query1), (emitDistinctChangesOnly query1),
      (descendants query2), (static query2), (emitDistinctChangesOnly query2);
      cbn; intros H; solve [reflexivity | discriminate H].
  - intros H. injection H as -> -> ->. reflexivity.
Qed.

(** ** Selectors *)

Lemma forallb_map_implied {X Y : Type} (P : X -> bool) (Q : Y -> bool) (f : X -> Y)
    (l : list X) :
  (forall x, P x = true -> Q (f x) = true) ->
  forallb P l = true -> forallb Q (map f l) = true.
Proof.
  intros HPQ. induction l as [|x l IH]; simpl; [reflexivity|].
  intros H. apply andb_true_iff in H as [Hx Hl].
  now rewrite (HPQ x Hx), (IH Hl).
Qed.

Lemma flattenSelectors_clean (selectors : list string) :
  forallb isClean (flattenSelectors selectors) = true.
Proof.
  induction selectors as [|selector rest IH]; [reflexivity|].
  unfold flattenSelectors in *. simpl. rewrite forallb_app, IH, andb_true_r.
  apply (forallb_map_implied (fun piece => negb (JsString.contains "," piece))).
  - intros piece H. apply negb_true_iff in H. now apply JsStringMore.trim_clean.
  - apply JsStringFacts.split_no_separator.
Qed.

Lemma flattenSelectors_of_clean (pieces : list string) :
  forallb isClean pieces = true -> flattenSelectors pieces = pieces.
Proof.
  induction pieces as [|piece rest IH]; [reflexivity|].
  simpl. intros H. apply andb_true_iff in H as [Hp Hrest].
  unfold flattenSelectors in *. simpl.
  now rewrite (JsStringMore.clean_piece _ Hp), (IH Hrest).
Qed.

Lemma flattenSelectors_length (selectors : list string) :
  List.length (flattenSelectors selectors)
  = (List.length selectors + list_sum (map (occurrences ",") selectors))%nat.
Proof.
  induction selectors as [|selector rest IH]; [reflexivity|].
  unfold flattenSelectors in *. simpl.
  rewrite length_app, length_map, JsStringMore.split_length, IH. lia.
Qed.

Lemma split_join_comma_space (name : string) (names : list string) :
  forallb (fun piece => negb (JsString.contains "," piece)) (name :: names) = true ->
  JsString.split "," (JsString.join ", " (name :: names))
  = name :: map (String " ") names.
Proof.
  revert name. induction names as [|next rest IH]; intros name H.
  - simpl in H. rewrite andb_true_r in H. apply negb_true_iff in H.
    now apply JsStringMore.split_without_separator.
  - change (forallb _ (name :: next :: rest))
      with (negb (JsString.contains "," name)
            && forallb (fun piece => negb (JsString.contains "," piece)) (next :: rest))
      in H.
    apply andb_true_iff in H as [Hname Hrest]. apply negb_true_iff in Hname.
    change (JsString.join ", " (name :: next :: rest))
      with (name ++ String "," (String " " (JsString.join ", " (next :: rest))))%string.
    rewrite (JsStringMore.split_app_separator _ _ _ Hname).
    change (JsString.split "," (String " " (JsString.join ", " (next :: rest))))
      with (match JsString.split "," (JsString.join ", " (next :: rest)) with
            | [] => [String " " EmptyString]
            | piece :: pieces => String " " piece :: pieces
            end).
    now rewrite (IH next Hrest).
Qed.

Lemma trim_padded_clean (pieces : list string) :
  forallb isClean pieces = true ->
  map JsString.trim (map (String " ") pieces) = pieces.
Proof.
  induction pieces as [|piece rest IH]; [reflexivity|].
  simpl. intros H. apply andb_true_iff in H as [Hp Hrest].
  rewrite (IH Hrest). f_equal.
  unfold isClean in Hp.
  apply andb_true_iff in Hp as [Hp He]. apply andb_true_iff in Hp as [_ Hs].
  apply negb_true_iff in Hs, He.
  change (JsString.trim (String " " piece)) with (JsString.trim piece).
  now apply JsStringMore.trim_id.
Qed.

(** X2.  Every entry of the array that [getQueryPredicate] builds from a
    list of selectors is a string literal in normal form: it holds no comma
    and neither starts nor ends with white space. *)
Theorem selector_literals_clean (selectors : list string) :
  Forall (fun entry =>
            exists piece,
              entry = o.LiteralExpr (o.LitString piece) /\ isClean piece = true)
    (fold_left pushSelectors selectors []).
Proof.
  rewrite fold_pushSelectors. simpl.
  pose proof (flattenSelectors_clean selectors) as Hclean.
  induction (flattenSelectors selectors) as [|piece rest IH]; simpl; constructor.
  - exists piece. simpl in Hclean. apply andb_true_iff in Hclean as [Hp _]. now split.
  - apply IH. simpl in Hclean. now apply andb_true_iff in Hclean as [_ Hrest].
Qed.

(** X3.  Nothing is dropped: the array has one entry per selector plus one
    per comma, so that an empty selector, and an empty piece between two
    commas, each give an (empty) literal. *)
Theorem selector_literal_count (selectors : list string) :
  List.length (fold_left pushSelectors selectors [])
  = (List.length selectors + list_sum (map (occurrences ",") selectors))%nat.
Proof.
  rewrite fold_pushSelectors. simpl. rewrite length_map.
  apply flattenSelectors_length.
Qed.

(** X4.  Flattening is a normal form: the pieces of a list of selectors,
    given as selectors themselves, resolve to the same predicate, with the
    same effect on the pool. *)
Theorem getQueryPredicate_normal_form `{I : Imports} (query : R3QueryMetadata)
    (selectors : list string) (constantPool : ConstantPool) :
  getQueryPredicate
    (withPredicate query (Selectors (flattenSelectors selectors))) constantPool
  = getQueryPredicate (withPredicate query (Selectors selectors)) constantPool.
Proof.
  unfold getQueryPredicate. simpl. rewrite !fold_pushSelectors.
  now rewrite (flattenSelectors_of_clean _ (flattenSelectors_clean selectors)).
Qed.

(** X5.  A selector that lists names in the shape [ref, ref1, ..., refN],
    each name in normal form, gives the literals of exactly these names, in
    order. *)
Theorem comma_separated_refs (name : string) (names : list string)
    (Hclean : forallb isClean (name :: names) = true) :
  fold_left pushSelectors [JsString.join ", " (name :: names)] []
  = map (fun piece => o.LiteralExpr (o.LitString piece)) (name :: names).
Proof.
  rewrite fold_pushSelectors. cbn [app]. f_equal.
  unfold flattenSelectors. cbn [flat_map]. rewrite app_nil_r.
  rewrite split_join_comma_space.
  - change (forallb isClean (name :: names))
      with (isClean name && forallb isClean names) in Hclean.
    apply andb_true_iff in Hclean as [Hname Hnames].
    cbn [map]. rewrite (trim_padded_clean _ Hnames). f_equal.
    unfold isClean in Hname.
    apply andb_true_iff in Hname as [Hname He]. apply andb_true_iff in Hname as [_ Hs].
    apply negb_true_iff in Hs, He. now apply JsStringMore.trim_id.
  - apply forallb_forall. intros piece Hin.
    rewrite forallb_forall in Hclean. specialize (Hclean piece Hin).
    unfold isClean in Hclean.
    apply andb_true_iff in Hclean as [Hclean _].
    now apply andb_true_iff in Hclean as [Hclean _].
Qed.

(** X5 on three names. *)
Lemma comma_separated_refs_witness :
  fold_left pushSelectors ["ref, ref1, refN"%string] []
  = [o.LiteralExpr (o.LitString "ref"); o.LiteralExpr (o.LitString "ref1");
     o.LiteralExpr (o.LitString "refN")].
Proof.
  exact (@comma_separated_refs "ref" ["ref1"; "refN"]%string eq_refl).
Defined.

(** ** The loops, for any allocator and any pool *)

Section LoopMore.

Context `{I : Imports}.

Lemma poolAfter_app (before after : list R3QueryMetadata) (constantPool : ConstantPool) :
  poolAfter (before ++ after) constantPool
  = poolAfter after (poolAfter before constantPool).
Proof. apply fold_left_app. Qed.

Lemma poolAfter_expressions (queries : list R3QueryMetadata)
    (constantPool : ConstantPool) :
  forallb hasExpressionPredicate queries = true ->
  poolAfter queries constantPool = constantPool.
Proof.
  induction queries as [|query rest IH]; [reflexivity|].
  simpl. intros H. apply andb_true_iff in H as [Hq Hrest].
  unfold poolAfter in *. simpl. rewrite <- (IH Hrest) at 2. f_equal.
  unfold hasExpressionPredicate in Hq. unfold getQueryPredicate.
  destruct (predicate query) as [|expression []]; [discriminate|..]; reflexivity.
Qed.

Lemma createStatementsOf_app (queryTypeFns : QueryTypeFns)
    (prependParams : option (list o.Expression))
    (before after : list R3QueryMetadata) (constantPool : ConstantPool) :
  createStatementsOf queryTypeFns prependParams (before ++ after) constantPool
  = createStatementsOf queryTypeFns prependParams before constantPool
    ++ createStatementsOf queryTypeFns prependParams after
         (poolAfter before constantPool).
Proof.
  revert constantPool. induction before as [|query rest IH]; intros pool; simpl.
  - reflexivity.
  - pose proof (createQueryCreateCall_pool query pool queryTypeFns prependParams) as Hp.
    destruct (createQueryCreateCall query pool queryTypeFns prependParams)
      as [call pool'].
    simpl in Hp. subst pool'. simpl. now rewrite IH.
Qed.

Lemma createStatementsOf_callee (queryTypeFns : QueryTypeFns)
    (prependParams : option (list o.Expression))
    (queries : list R3QueryMetadata) (constantPool : ConstantPool) :
  map callee (createStatementsOf queryTypeFns prependParams queries constantPool)
  = map (fun query =>
           Some (if isSignal query
                 then signalBased queryTypeFns else nonSignal queryTypeFns))
      queries.
Proof.
  revert constantPool. induction queries as [|query rest IH]; intros pool; simpl.
  - reflexivity.
  - rewrite createQueryCreateCall_eq. simpl. now rewrite IH.
Qed.

Lemma createStatementsOf_prepend (fns fns' : QueryTypeFns) (argument : o.Expression)
    (queries : list R3QueryMetadata) (constantPool : ConstantPool) :
  map callArguments (createStatementsOf fns' (Some [argument]) queries constantPool)
  = map (option_map (cons argument))
      (map callArguments (createStatementsOf fns None queries constantPool)).
Proof.
  revert constantPool. induction queries as [|query rest IH]; intros pool; simpl.
  - reflexivity.
  - rewrite !createQueryCreateCall_eq. simpl. now rewrite IH.
Qed.

Context `{A : TempAllocator}.

Lemma viewQueriesStatements_shared (queries : list R3QueryMetadata)
    (constantPool : ConstantPool) :
  viewQueriesStatements queries constantPool
  = fold_left (sharedStep viewQueryTypeFns None) queries (initialState constantPool).
Proof. apply fold_left_ext, viewQueriesCallback_shared. Qed.

Lemma contentQueriesStatements_shared (queries : list R3QueryMetadata)
    (constantPool : ConstantPool) :
  contentQueriesStatements queries constantPool
  = fold_left (sharedStep contentQueryTypeFns (Some [o.variable "dirIndex"]))
      queries (initialState constantPool).
Proof. apply fold_left_ext, contentQueriesBody_shared. Qed.

Lemma viewQueriesStatements_create (queries : list R3QueryMetadata)
    (constantPool : ConstantPool) :
  createStatements (viewQueriesStatements queries constantPool)
  = createStatementsOf viewQueryTypeFns None queries constantPool
  /\ poolState (viewQueriesStatements queries constantPool)
     = poolAfter queries constantPool.
Proof.
  rewrite viewQueriesStatements_shared.
  destruct (sharedLoop_create viewQueryTypeFns None queries (initialState constantPool))
    as [-> ->].
  now destruct (initialState_create constantPool) as [-> ->].
Qed.

Lemma contentQueriesStatements_create (queries : list R3QueryMetadata)
    (constantPool : ConstantPool) :
  createStatements (contentQueriesStatements queries constantPool)
  = createStatementsOf contentQueryTypeFns (Some [o.variable "dirIndex"])
      queries constantPool
  /\ poolState (contentQueriesStatements queries constantPool)
     = poolAfter queries constantPool.
Proof.
  rewrite contentQueriesStatements_shared.
  destruct (sharedLoop_create contentQueryTypeFns (Some [o.variable "dirIndex"])
              queries (initialState constantPool)) as [-> ->].
  now destruct (initialState_create constantPool) as [-> ->].
Qed.

Lemma updateLoop_signals (queries : list R3QueryMetadata)
    (updates : list o.Statement) (state : allocator) :
  forallb isSignal queries = true ->
  fold_left updateStep queries (updates, state)
  = (updates ++ repeat advanceStatement (List.length queries), state).
Proof.
  revert updates. induction queries as [|query rest IH]; intros updates H; simpl.
  - now rewrite app_nil_r.
  - simpl in H. apply andb_true_iff in H as [Hq Hrest].
    unfold updateStep at 2. rewrite Hq. cbn [fst snd].
    rewrite (IH _ Hrest). now rewrite <- app_assoc.
Qed.

End LoopMore.

(** X6.  Only selector lists reach the constant pool: when every descriptor
    has an expression for a predicate, both functions leave the pool as they
    found it. *)
Theorem expressions_leave_pool `{I : Imports} `{A : TempAllocator}
    (queries : list R3QueryMetadata) (constantPool : ConstantPool)
    (name : option string)
    (Hexpressions : forallb hasExpressionPredicate queries = true) :
  snd (createViewQueriesFunction queries constantPool name) = constantPool
  /\ snd (createContentQueriesFunction queries constantPool name) = constantPool.
Proof.
  unfold createViewQueriesFunction, createContentQueriesFunction. cbn [snd].
  destruct (viewQueriesStatements_create queries constantPool) as [_ ->].
  destruct (contentQueriesStatements_create queries constantPool) as [_ ->].
  now rewrite (poolAfter_expressions _ _ Hexpressions).
Qed.

(** X7.  When every descriptor is a signal query the allocator is created
    and never called: whatever the allocator is, the update statements are
    those its creation left, followed by one call of [queryAdvance] per
    descriptor, and its state is the one it was created in. *)
Theorem signals_never_allocate `{I : Imports} `{A : TempAllocator}
    (queries : list R3QueryMetadata) (constantPool : ConstantPool)
    (Hsignals : forallb isSignal queries = true) :
  let advance :=
    o.ExpressionStatement (o.InvokeFunctionExpr (o.ExternalExpr (queryAdvance R3)) []) in
  let created := temporaryAllocator [] TEMPORARY_NAME in
  (updateStatements (viewQueriesStatements queries constantPool)
   = snd created ++ repeat advance (List.length queries)
   /\ tempAllocatorState (viewQueriesStatements queries constantPool) = fst created)
  /\ (updateStatements (contentQueriesStatements queries constantPool)
      = snd created ++ repeat advance (List.length queries)
      /\ tempAllocatorState (contentQueriesStatements queries constantPool)
         = fst created).
Proof.
  intros advance created.
  pose proof (sharedLoop_update viewQueryTypeFns None queries
                (initialState constantPool)) as Hv.
  pose proof (sharedLoop_update contentQueryTypeFns (Some [o.variable "dirIndex"])
                queries (initialState constantPool)) as Hc.
  rewrite <- viewQueriesStatements_shared in Hv.
  rewrite <- contentQueriesStatements_shared in Hc.
  rewrite (updateLoop_signals _ _ _ Hsignals) in Hv, Hc.
  assert (Hinit : updateStatements (initialState constantPool) = snd created
                  /\ tempAllocatorState (initialState constantPool) = fst created)
    by (unfold initialState; subst created;
        now destruct (temporaryAllocator [] TEMPORARY_NAME)).
  destruct Hinit as [Hu Ha]. rewrite Hu, Ha in Hv, Hc.
  injection Hv as -> ->. injection Hc as -> ->. now repeat split.
Qed.

(** X8.  For any allocator and pool the creation statements name one
    instruction per descriptor, in descriptor order: [viewQuerySignal] or
    [viewQuery] in [createViewQueriesFunction], [contentQuerySignal] or
    [contentQuery] in [createContentQueriesFunction], by [isSignal]. *)
Theorem creation_instructions `{I : Imports} `{A : TempAllocator}
    (queries : list R3QueryMetadata) (constantPool : ConstantPool) :
  map callee (createStatements (viewQueriesStatements queries constantPool))
  = map (fun query =>
           Some (if isSignal query then viewQuerySignal R3 else viewQuery R3))
      queries
  /\ map callee (createStatements (contentQueriesStatements queries constantPool))
     = map (fun query =>
              Some (if isSignal query then contentQuerySignal R3 else contentQuery R3))
         queries.
Proof.
  destruct (viewQueriesStatements_create queries constantPool) as [-> _].
  destruct (contentQueriesStatements_create queries constantPool) as [-> _].
  now rewrite !createStatementsOf_callee.
Qed.

(** X9.  Statement by statement, the arguments of a creation call of
    [createContentQueriesFunction] are [dirIndex] followed by the arguments
    of the creation call of [createViewQueriesFunction] for the same
    descriptors and pool. *)
Theorem content_arguments_extend_view_arguments `{I : Imports} `{A : TempAllocator}
    (queries : list R3QueryMetadata) (constantPool : ConstantPool) :
  map callArguments (createStatements (contentQueriesStatements queries constantPool))
  = map (option_map (cons (o.ReadVarExpr "dirIndex")))
      (map callArguments (createStatements (viewQueriesStatements queries constantPool))).
Proof.
  destruct (viewQueriesStatements_create queries constantPool) as [-> _].
  destruct (contentQueriesStatements_create queries constantPool) as [-> _].
  apply createStatementsOf_prepend.
Qed.

(** X10.  The creation statements of a list of descriptors are those of a
    prefix followed by those of the rest built on the pool the prefix left:
    descriptors that come later never change a creation statement already
    emitted. *)
Theorem creation_statements_compose `{I : Imports} `{A : TempAllocator}
    (before after : list R3QueryMetadata) (constantPool : ConstantPool) :
  createStatements (viewQueriesStatements (before ++ after) constantPool)
  = createStatements (viewQueriesStatements before constantPool)
    ++ createStatements
         (viewQueriesStatements after
            (poolState (viewQueriesStatements before constantPool)))
  /\ createStatements (contentQueriesStatements (before ++ after) constantPool)
     = createStatements (contentQueriesStatements before constantPool)
       ++ createStatements
            (contentQueriesStatements after
               (poolState (contentQueriesStatements before constantPool))).
Proof.
  split.
  - destruct (viewQueriesStatements_create (before ++ after) constantPool) as [-> _].
    destruct (viewQueriesStatements_create before constantPool) as [-> ->].
    destruct (viewQueriesStatements_create after (poolAfter before constantPool))
      as [-> _].
    apply createStatementsOf_app.
  - destruct (contentQueriesStatements_create (before ++ after) constantPool) as [-> _].
    destruct (contentQueriesStatements_create before constantPool) as [-> ->].
    destruct (contentQueriesStatements_create after (poolAfter before constantPool))
      as [-> _].
    apply createStatementsOf_app.
Qed.

(** ** Function names *)

(** X11.  Owners with different non-empty names get functions with
    different names: from the name of the function the name of the owner can
    be told. *)
Theorem function_names_injective `{I : Imports} `{A : TempAllocator}
    (queries : list R3QueryMetadata) (constantPool : ConstantPool)
    (c1 c2 : ascii) (rest1 rest2 : string)
    (Hsame :
       functionName
         (fst (createViewQueriesFunction queries constantPool (Some (String c1 rest1))))
       = functionName
           (fst (createViewQueriesFunction queries constantPool (Some (String c2 rest2))))
       \/ functionName
            (fst (createContentQueriesFunction queries constantPool
                    (Some (String c1 rest1))))
          = functionName
              (fst (createContentQueriesFunction queries constantPool
                      (Some (String c2 rest2))))) :
  String c1 rest1 = String c2 rest2.
Proof.
  cbn in Hsame. destruct Hsame as [H | H]; injection H as -> H;
    now rewrite (JsStringMore.append_inv_tail _ _ _ H).
Qed.

(** X12.  The view function and the content function never share a name,
    whatever the two owners are called. *)
Theorem view_and_content_names_differ `{I : Imports} `{A : TempAllocator}
    (queries queries' : list R3QueryMetadata) (constantPool constantPool' : ConstantPool)
    (c1 c2 : ascii) (rest1 rest2 : string) :
  functionName
    (fst (createViewQueriesFunction queries constantPool (Some (String c1 rest1))))
  <> functionName
       (fst (createContentQueriesFunction queries' constantPool'
               (Some (String c2 rest2)))).
Proof.
  cbn. intros H. injection H as _ H.
  change (rest1 ++ "_Query")%string with (rest1 ++ ("_Quer" ++ "y"))%string in H.
  change (rest2 ++ "_ContentQueries")%string
    with (rest2 ++ ("_ContentQuerie" ++ "s"))%string in H.
  rewrite <- !JsStringMore.append_assoc in H.
  apply JsStringMore.append_last in H. discriminate H.
Qed.

(** X6 on the signal query of the sample. *)
Lemma expressions_leave_pool_witness :
  snd (createViewQueriesFunction (I := Sample.imports) (A := specTemporaryAllocator)
         [Sample.signalQuery; Sample.signalQuery] [] (Some "Foo"%string)) = []
  /\ snd (createContentQueriesFunction (I := Sample.imports)
            (A := specTemporaryAllocator)
            [Sample.signalQuery; Sample.signalQuery] [] (Some "Foo"%string)) = [].
Proof.
  exact (@expressions_leave_pool Sample.imports specTemporaryAllocator
           [Sample.signalQuery; Sample.signalQuery] [] (Some "Foo"%string) eq_refl).
Defined.

(** X7 on two signal queries, with the allocator that declares its
    variable. *)
Lemma signals_never_allocate_witness :
  updateStatements
    (viewQueriesStatements (I := Sample.imports) (A := declaringAllocator)
       [Sample.signalQuery; Sample.signalQuery] [])
  = [o.ExpressionStatement
       (o.InvokeFunctionExpr (o.ExternalExpr (Sample.core "queryAdvance")) []);
     o.ExpressionStatement
       (o.InvokeFunctionExpr (o.ExternalExpr (Sample.core "queryAdvance")) [])].
Proof.
  exact (proj1 (proj1 (@signals_never_allocate Sample.imports declaringAllocator
                         [Sample.signalQuery; Sample.signalQuery] [] eq_refl))).
Defined.

(** X11 on one name. *)
Lemma function_names_injective_witness : "Foo"%string = "Foo"%string.
Proof.
  exact (@function_names_injective Sample.imports specTemporaryAllocator [] []
           "F" "F" "oo" "oo" (or_introl eq_refl)).
Defined.

(** ** What the update statements depend on *)

Lemma updateLoop_ext `{I : Imports} `{A : TempAllocator}
    (queries queries' : list R3QueryMetadata)
    (acc : list o.Statement * allocator) :
  map (fun query => (isSignal query, first query, propertyName query)) queries
  = map (fun query => (isSignal query, first query, propertyName query)) queries' ->
  fold_left updateStep queries acc = fold_left updateStep queries' acc.
Proof.
  revert queries' acc.
  induction queries as [|query rest IH]; intros [|query' rest'] acc H;
    try discriminate H; [reflexivity|].
  simpl in H. injection H as Hsignal Hfirst Hname Hrest. simpl.
  replace (updateStep acc query') with (updateStep acc query); [now apply IH|].
  unfold updateStep, refreshStatement. now rewrite Hsignal, Hfirst, Hname.
Qed.

(** X13.  The update statements, and the use made of the allocator, depend
    on [isSignal], [first] and [propertyName] of the descriptors and on
    nothing else: not on the predicates, the flags or the [read] tokens, nor
    on the constant pool, nor on which of the two functions runs. *)
Theorem update_statements_depend_on `{I : Imports} `{A : TempAllocator}
    (queries queries' : list R3QueryMetadata) (constantPool constantPool' : ConstantPool)
    (Hsame :
       map (fun query => (isSignal query, first query, propertyName query)) queries
       = map (fun query => (isSignal query, first query, propertyName query)) queries') :
  (updateStatements (viewQueriesStatements queries constantPool)
   = updateStatements (viewQueriesStatements queries' constantPool')
   /\ tempAllocatorState (viewQueriesStatements queries constantPool)
      = tempAllocatorState (viewQueriesStatements queries' constantPool'))
  /\ (updateStatements (contentQueriesStatements queries constantPool)
      = updateStatements (viewQueriesStatements queries' constantPool')
      /\ tempAllocatorState (contentQueriesStatements queries constantPool)
         = tempAllocatorState (viewQueriesStatements queries' constantPool')).
Proof.
  pose proof (sharedLoop_update viewQueryTypeFns None queries
                (initialState constantPool)) as Hv.
  pose proof (sharedLoop_update viewQueryTypeFns None queries'
                (initialState constantPool')) as Hv'.
  pose proof (sharedLoop_update contentQueryTypeFns (Some [o.variable "dirIndex"])
                queries (initialState constantPool)) as Hc.
  rewrite <- viewQueriesStatements_shared in Hv, Hv'.
  rewrite <- contentQueriesStatements_shared in Hc.
  assert (Hinit : forall pool,
             (updateStatements (initialState pool), tempAllocatorState (initialState pool))
             = (snd (temporaryAllocator [] TEMPORARY_NAME),
                fst (temporaryAllocator [] TEMPORARY_NAME)))
    by (intros pool; unfold initialState;
        now destruct (temporaryAllocator [] TEMPORARY_NAME)).
  rewrite Hinit in Hv, Hv', Hc.
  rewrite (updateLoop_ext _ _ _ Hsame) in Hv, Hc.
  rewrite <- Hv' in Hv, Hc.
  injection Hv as -> ->. injection Hc as -> ->. now repeat split.
Qed.

(** X13 on two descriptors that differ in predicate, flags and [read], and
    two pools. *)
Lemma update_statements_depend_on_witness :
  updateStatements
    (viewQueriesStatements (I := Sample.imports) (A := specTemporaryAllocator)
       [Sample.firstQuery] [])
  = updateStatements
      (viewQueriesStatements (I := Sample.imports) (A := specTemporaryAllocator)
         [{| propertyName := "item"; first := true;
             predicate := MaybeForwardRefExpression (o.Upstream 1)
                            ForwardRefHandling.Wrapped;
             descendants := false; emitDistinctChangesOnly := true;
             read := Some (o.Upstream 2); static := true; isSignal := false |}]
         [o.LiteralArrayExpr []]).
Proof.
  exact (proj1 (proj1 (@update_statements_depend_on Sample.imports
                         specTemporaryAllocator
                         [Sample.firstQuery]
                         [{| propertyName := "item"; first := true;
                             predicate := MaybeForwardRefExpression (o.Upstream 1)
                                            ForwardRefHandling.Wrapped;
                             descendants := false; emitDistinctChangesOnly := true;
                             read := Some (o.Upstream 2); static := true;
                             isSignal := false |}]
                         [] [o.LiteralArrayExpr []] eq_refl))).
Defined.
